(** * nginx-proxy controller: configuration compiler and CRUD operations

    A shallow embedding of [src/server/controller/nginx-proxy.ts].

    - JavaScript values that the code inspects at run time ([typeof],
      truthiness, template literals) are modelled by [JsValue] and the
      [ToBoolean] class.
    - The pure builders ([genServiceLocation], [genRedirectHttpsLocation],
      [genNginxSSL], [genNginxUpstream], [genNginxConfig]) run in the error
      monad [Result]: a property access on [undefined] raises [TypeError].
    - The asynchronous operations ([apply], [getInfo], [create], [update],
      [remove]) are programs over the events of the two external
      collaborators, the TypeORM repository and fs-extra. *)

From Stdlib Require Import Ascii String ZArith QArith List Bool Lia.
From Stdlib Require Import Decimal DecimalString DecimalPos DecimalN DecimalZ.
From ExtLib Require Import Structures.Monad.
Import ListNotations.
Import MonadNotation.

Local Open Scope monad_scope.
Local Open Scope string_scope.
Local Open Scope Z_scope.

Set Implicit Arguments.

(* ===================================================================== *)
(** ** JavaScript values *)
(* ===================================================================== *)

(** A JavaScript number: every finite double is a rational, so [Finite]
    over-approximates them; [-0] and [0] are the same rational, as they are
    for [>]. *)
Inductive Number : Type :=
| NaN
| PosInfinity
| NegInfinity
| Finite (q : Q).

(** The values that reach the controller through untyped parameters and
    through the pass-through TLS fields. *)
#[warnings="-register-all"]
Inductive JsValue : Type :=
| JsUndefined
| JsNull
| JsBoolean (b : bool)
| JsNumber (n : Number)
| JsString (s : string)
| JsArray (l : list JsValue).

(** [typeof v]. *)
Definition typeof (v : JsValue) : string :=
  match v with
  | JsUndefined => "undefined"
  | JsNull => "object"
  | JsBoolean _ => "boolean"
  | JsNumber _ => "number"
  | JsString _ => "string"
  | JsArray _ => "object"
  end.

(** [a > b] on rationals. *)
Definition Qgtb (a b : Q) : bool := negb (Qle_bool a b).

(** [a > b] on numbers: any comparison with [NaN] is false. *)
Definition num_gt (a b : Number) : bool :=
  match a, b with
  | NaN, _ | _, NaN => false
  | PosInfinity, PosInfinity => false
  | PosInfinity, _ => true
  | NegInfinity, _ => false
  | Finite _, PosInfinity => false
  | Finite _, NegInfinity => true
  | Finite p, Finite q => Qgtb p q
  end.

(** JavaScript's ToBoolean, per static type. *)
Class ToBoolean (A : Type) : Type := truthy : A -> bool.

#[global] Instance ToBoolean_bool : ToBoolean bool := fun b => b.

#[global] Instance ToBoolean_string : ToBoolean string :=
  fun s => match s with EmptyString => false | String _ _ => true end.

#[global] Instance ToBoolean_number : ToBoolean Number :=
  fun n =>
    match n with
    | NaN => false
    | PosInfinity | NegInfinity => true
    | Finite q => negb (Qeq_bool q 0)
    end.

#[global] Instance ToBoolean_list {A : Type} : ToBoolean (list A) :=
  fun _ => true.

(** An absent property is [undefined], which is falsy. *)
#[global] Instance ToBoolean_option {A : Type} `{ToBoolean A}
  : ToBoolean (option A) :=
  fun o => match o with None => false | Some a => truthy a end.

#[global] Instance ToBoolean_JsValue : ToBoolean JsValue :=
  fun v =>
    match v with
    | JsUndefined | JsNull => false
    | JsBoolean b => b
    | JsNumber n => truthy n
    | JsString s => truthy s
    | JsArray _ => true
    end.

(* ===================================================================== *)
(** ** Entities *)
(* ===================================================================== *)

(** Modelled from the spec: the entity declarations ([../entity]) are not
    part of the sources.  Section 3 of the specification gives the fields;
    the machine collection keeps the name the controller uses
    ([mechines]).  A property that may be missing at run time is an
    [option]. *)
Record Mechine : Type := {
  host : string;
  disabled : option bool
}.

Record Application : Type := {
  key : string;
  mechines : option (list Mechine)
}.

Record Certificate : Type := {
  crt : string;
  crtKey : string
}.

Record NginxProxy : Type := {
  id : option Z;
  domains : option string;
  enableHttp : option bool;
  enableHttps : option bool;
  redirectHttps : option bool;
  application : option Application;
  certificate : option Certificate;
  sslCiphers : JsValue;
  sslPreferServerCiphers : JsValue;
  sslProtocols : JsValue;
  sslSessionCache : JsValue;
  sslSessionTimeout : JsValue;
  sslStapling : JsValue
}.

(** Objects are always truthy. *)
#[global] Instance ToBoolean_Application : ToBoolean Application :=
  fun _ => true.
#[global] Instance ToBoolean_Certificate : ToBoolean Certificate :=
  fun _ => true.

(** [`${n}`] for an integer-valued number: the decimal numeral (what
    JavaScript prints for every integer of magnitude below 10^21). *)
Definition string_of_Z (z : Z) : string :=
  NilZero.string_of_int (Z.to_int z).

(** [`${proxy.id}`]: a missing id prints as [undefined]. *)
Definition template_of_id (i : option Z) : string :=
  match i with
  | Some z => string_of_Z z
  | None => "undefined"
  end.

(* ===================================================================== *)
(** ** The configuration tree *)
(* ===================================================================== *)

(** Modelled from the spec: the declarations of [../utils/nginx-config-parser]
    are not part of the sources.  The records below have the properties the
    controller reads and writes; a property the controller assigns after
    creating the object is optional.  Of the two enumerations only the members
    [On] and [Permanent] occur in the controller. *)
Inductive NginxFuzzyBoolean : Type := On | Off.

Inductive NginxRewriteMode : Type := Last | Break | Redirect | Permanent.

Record NginxHeader : Type := {
  header_key : string;
  header_value : string
}.

Record NginxRewrite : Type := {
  from : string;
  to : string;
  mode : NginxRewriteMode
}.

Record NginxLocation : Type := {
  path : string;
  sendFile : option NginxFuzzyBoolean;
  proxySetHeader : option (list NginxHeader);
  proxyPass : option string;
  rewrite : option NginxRewrite
}.

(** The property [certificate] of the SSL object is [ssl_certificate] here
    (the entity has a [certificate] too); likewise [server_host] for the
    [host] of an upstream server and [header_key], [header_value] above. *)
Record NginxSSLConfig : Type := {
  ssl_certificate : string;
  certificateKey : string;
  sessionTimeout : JsValue;
  protocols : JsValue;
  ciphers : JsValue;
  sessionCache : JsValue;
  preferServerCiphers : JsValue;
  stapling : JsValue
}.

Record NginxServer : Type := {
  server_host : string
}.

Record NginxUpstreamConfig : Type := {
  name : string;
  servers : list NginxServer
}.

(** The object of [config.http] and of [config.https]. *)
Record NginxService : Type := {
  serviceName : option string;
  location : option (list NginxLocation);
  ssl : option NginxSSLConfig
}.

Record NginxConfig : Type := {
  upstream : option NginxUpstreamConfig;
  http : option NginxService;
  https : option NginxService
}.

#[global] Instance ToBoolean_Upstream : ToBoolean NginxUpstreamConfig :=
  fun _ => true.

(* ===================================================================== *)
(** ** Exceptions and the error monad *)
(* ===================================================================== *)

(** Modelled from the spec: [ErrorMessage] ([../constant]) is not part of the
    sources; its two members used here are kept as names. *)
Inductive ErrorMessage : Type := illegalId | noNginxProxy.

Inductive Exn : Type :=
| ServerError (status : Z) (message : ErrorMessage)
| TypeError (what : string).

Inductive Result (A : Type) : Type :=
| Ok (a : A)
| Raise (e : Exn).

Arguments Ok {A} a.
Arguments Raise {A} e.

#[global] Instance Monad_Result : Monad Result := {|
  ret := fun _ a => Ok a;
  bind := fun _ _ m f =>
    match m with
    | Ok a => f a
    | Raise e => Raise e
    end
|}.

(** [o.p] where [o] may be [undefined]. *)
Definition deref {A : Type} (what : string) (o : option A) : Result A :=
  match o with
  | Some a => Ok a
  | None => Raise (TypeError what)
  end.

(* ===================================================================== *)
(** ** The builders *)
(* ===================================================================== *)

(** [!!(proxy.application && proxy.application.mechines)]: an array is
    truthy whatever its length. *)
Definition hasMechines (proxy : NginxProxy) : bool :=
  match application proxy with
  | Some app => truthy app && truthy (mechines app)
  | None => false
  end.

Definition genServiceLocation (upstreamName : string) : NginxLocation :=
  let location :=
    {| path := "/"; sendFile := None; proxySetHeader := None;
       proxyPass := None; rewrite := None |} in
  let location :=
    {| path := path location; sendFile := Some On;
       proxySetHeader := proxySetHeader location;
       proxyPass := proxyPass location; rewrite := rewrite location |} in
  let location :=
    {| path := path location; sendFile := sendFile location;
       proxySetHeader :=
         Some [ {| header_key := "X-Real-IP"; header_value := "$remote_addr" |};
                {| header_key := "Host"; header_value := "$http_host" |} ];
       proxyPass := proxyPass location; rewrite := rewrite location |} in
  {| path := path location; sendFile := sendFile location;
     proxySetHeader := proxySetHeader location;
     proxyPass := Some ("http://" ++ upstreamName);
     rewrite := rewrite location |}.

Definition genRedirectHttpsLocation : NginxLocation :=
  let location :=
    {| path := "/"; sendFile := None; proxySetHeader := None;
       proxyPass := None; rewrite := None |} in
  {| path := path location; sendFile := sendFile location;
     proxySetHeader := proxySetHeader location;
     proxyPass := proxyPass location;
     rewrite := Some {| from := "^/(.*)";
                        to := "https://$server_name$1";
                        mode := Permanent |} |}.

(** [proxy.certificate.crt] raises when the certificate is missing. *)
Definition genNginxSSL (proxy : NginxProxy) : Result NginxSSLConfig :=
  cert <- deref "proxy.certificate" (certificate proxy) ;;
  ret {| ssl_certificate := crt cert;
         certificateKey := crtKey cert;
         sessionTimeout := sslSessionTimeout proxy;
         protocols := sslProtocols proxy;
         ciphers := sslCiphers proxy;
         sessionCache := sslSessionCache proxy;
         preferServerCiphers := sslPreferServerCiphers proxy;
         stapling := sslStapling proxy |}.

(** [proxy.application.mechines.filter(..).map(..)] raises when the
    application or its collection is missing. *)
Definition genNginxUpstream (proxy : NginxProxy) : Result NginxUpstreamConfig :=
  app <- deref "proxy.application" (application proxy) ;;
  ms <- deref "proxy.application.mechines" (mechines app) ;;
  let servers :=
    map (fun mechine => {| server_host := host mechine |})
        (filter (fun mechine => negb (truthy (disabled mechine))) ms) in
  ret {| name := key app ++ "_" ++ template_of_id (id proxy);
         servers := servers |}.

(** [service.location.push(l)]. *)
Definition push_location (l : NginxLocation) (service : NginxService)
  : Result NginxService :=
  locs <- deref "location" (location service) ;;
  ret {| serviceName := serviceName service;
         location := Some (locs ++ [l])%list;
         ssl := ssl service |}.

Definition emptyConfig : NginxConfig :=
  {| upstream := None; http := None; https := None |}.

Definition emptyService : NginxService :=
  {| serviceName := None; location := None; ssl := None |}.

Definition set_upstream (u : NginxUpstreamConfig) (config : NginxConfig) :=
  {| upstream := Some u; http := http config; https := https config |}.

Definition set_http (h : NginxService) (config : NginxConfig) :=
  {| upstream := upstream config; http := Some h; https := https config |}.

Definition set_https (h : NginxService) (config : NginxConfig) :=
  {| upstream := upstream config; http := http config; https := Some h |}.

Definition set_serviceName (n : option string) (service : NginxService) :=
  {| serviceName := n; location := location service; ssl := ssl service |}.

Definition set_location (l : list NginxLocation) (service : NginxService) :=
  {| serviceName := serviceName service; location := Some l;
     ssl := ssl service |}.

Definition set_ssl (s : NginxSSLConfig) (service : NginxService) :=
  {| serviceName := serviceName service; location := location service;
     ssl := Some s |}.

Definition genNginxConfig (proxy : NginxProxy) : Result NginxConfig :=
  let config := emptyConfig in
  (* no domains, no proxy *)
  if negb (truthy (domains proxy)) then ret config
  else
    config <-
      (if hasMechines proxy then
         u <- genNginxUpstream proxy ;;
         ret (set_upstream u config)
       else ret config) ;;
    config <-
      (if truthy (enableHttp proxy) then
         let service := emptyService in
         let service := set_serviceName (domains proxy) service in
         let service := set_location [] service in
         service <-
           (if truthy (redirectHttps proxy) then
              (* redirect to https *)
              push_location genRedirectHttpsLocation service
            else if truthy (upstream config) then
              (* forward to the service *)
              u <- deref "config.upstream" (upstream config) ;;
              push_location (genServiceLocation (name u)) service
            else ret service) ;;
         ret (set_http service config)
       else ret config) ;;
    config <-
      (if truthy (enableHttps proxy) && truthy (certificate proxy) then
         let service := emptyService in
         let service := set_serviceName (domains proxy) service in
         let service := set_location [] service in
         s <- genNginxSSL proxy ;;
         let service := set_ssl s service in
         service <-
           (if truthy (upstream config) then
              u <- deref "config.upstream" (upstream config) ;;
              push_location (genServiceLocation (name u)) service
            else ret service) ;;
         ret (set_https service config)
       else ret config) ;;
    ret config.

(* ===================================================================== *)
(** ** Programs over the external collaborators *)
(* ===================================================================== *)

(** Modelled from the spec: [NGINX_CONF_DIR] ([../constant/Path]) and
    [stringify] ([../utils/nginx-config-parser]) are not part of the sources,
    and [join] is Node's; the three are kept as uninterpreted symbols, so
    that a path or a text records how the controller built it. *)
Inductive Path : Type :=
| NGINX_CONF_DIR
| join (dir : Path) (filename : string).

Inductive Text : Type :=
| stringify (config : NginxConfig).

(** An argument of [console.log]. *)
Inductive LogArg : Type :=
| LogString (s : string)
| LogProxy (proxy : NginxProxy)
| LogConfig (config : NginxConfig).

(** The calls into TypeORM and fs-extra (and the console), each with the
    type of its answer.  [RepoSave] answers with the entity as the save
    leaves it: TypeORM completes the object it is given in place (the
    generated id) and resolves to that same object. *)
Inductive Event : Type -> Type :=
| GetRepository : Event unit
| RepoFind : Event (list NginxProxy)
| RepoFindOne (id : JsValue) : Event (option NginxProxy)
| RepoSave (entity : NginxProxy) : Event NginxProxy
| RepoDelete (id : JsValue) : Event unit
| FsEnsureDir (dir : Path) : Event unit
| FsWriteFile (file : Path) (data : Text) : Event unit
| FsPathExists (file : Path) : Event bool
| FsRemove (file : Path) : Event unit
| ConsoleLog (args : list LogArg) : Event unit.

(** An asynchronous function: it returns, throws, or awaits an external
    call and goes on with its answer. *)
Inductive Prog (A : Type) : Type :=
| Ret (a : A)
| Throw (e : Exn)
| Vis (X : Type) (e : Event X) (k : X -> Prog A).

Arguments Ret {A} a.
Arguments Throw {A} e.
Arguments Vis {A X} e k.

Fixpoint Prog_bind {A B : Type} (m : Prog A) (f : A -> Prog B) : Prog B :=
  match m with
  | Ret a => f a
  | Throw e => Throw e
  | Vis e k => Vis e (fun x => Prog_bind (k x) f)
  end.

#[global] Instance Monad_Prog : Monad Prog := {|
  ret := fun _ a => Ret a;
  bind := fun _ _ m f => Prog_bind m f
|}.

Definition trigger {X : Type} (e : Event X) : Prog X := Vis e Ret.

(** A synchronous call inside an asynchronous function: its exception
    rejects the promise. *)
Definition lift {A : Type} (r : Result A) : Prog A :=
  match r with
  | Ok a => Ret a
  | Raise e => Throw e
  end.

(* ===================================================================== *)
(** ** The controller *)
(* ===================================================================== *)

(** [typeof id === 'number' && id > 0]: the right operand is evaluated
    only when the left one holds, that is, on a number. *)
Definition validateId (id : JsValue) : bool :=
  if (typeof id =? "number")%string then
    match id with
    | JsNumber n => num_gt n (Finite 0)
    | _ => false
    end
  else false.

Definition getNginxConfigPath (config : NginxProxy) : Path :=
  let filename := template_of_id (id config) in
  join NGINX_CONF_DIR filename.

Definition apply (proxy : NginxProxy) : Prog unit :=
  trigger (ConsoleLog [LogProxy proxy]) ;;
  config <- lift (genNginxConfig proxy) ;;
  trigger (ConsoleLog [LogString "config => "; LogConfig config]) ;;
  let CONFIG_PATH := getNginxConfigPath proxy in
  trigger (FsEnsureDir NGINX_CONF_DIR) ;;
  trigger (FsWriteFile CONFIG_PATH (stringify config)).

Definition getList : Prog (list NginxProxy) :=
  trigger GetRepository ;;
  trigger RepoFind.

Definition getInfo (id : JsValue) : Prog NginxProxy :=
  if validateId id then Throw (ServerError 400 illegalId)
  else
    trigger GetRepository ;;
    nginxProxy <- trigger (RepoFindOne id) ;;
    match nginxProxy with
    | None => Throw (ServerError 404 noNginxProxy)
    | Some nginxProxy => ret nginxProxy
    end.

(** The [options] of [create] and [update], untyped in the source.  The
    record is an options object whose properties are values of the entity
    fields they are assigned to, or are missing; [id] is whatever the caller
    sent.  A call without an options object ([undefined] or [null], on
    which the destructuring of the source throws) and a property of
    another run-time type have no counterpart here; nothing below says what
    the operations do on them. *)
Record Options : Type := {
  o_id : JsValue;
  o_domains : option string;
  o_enableHttp : option bool;
  o_enableHttps : option bool;
  o_application : option Application;
  o_certificate : option Certificate;
  o_sslCiphers : JsValue;
  o_sslPreferServerCiphers : JsValue;
  o_sslProtocols : JsValue;
  o_sslSessionCache : JsValue;
  o_sslSessionTimeout : JsValue;
  o_sslStapling : JsValue
}.

(** [new NginxProxy()]: no property is set. *)
Definition newNginxProxy : NginxProxy :=
  {| id := None; domains := None; enableHttp := None; enableHttps := None;
     redirectHttps := None; application := None; certificate := None;
     sslCiphers := JsUndefined; sslPreferServerCiphers := JsUndefined;
     sslProtocols := JsUndefined; sslSessionCache := JsUndefined;
     sslSessionTimeout := JsUndefined; sslStapling := JsUndefined |}.

(** [nginxProxy.f = v], one definition per assigned property. *)
Definition set_domains (v : option string) (nginxProxy : NginxProxy) : NginxProxy :=
  {| id := id nginxProxy;
     domains := v;
     enableHttp := enableHttp nginxProxy;
     enableHttps := enableHttps nginxProxy;
     redirectHttps := redirectHttps nginxProxy;
     application := application nginxProxy;
     certificate := certificate nginxProxy;
     sslCiphers := sslCiphers nginxProxy;
     sslPreferServerCiphers := sslPreferServerCiphers nginxProxy;
     sslProtocols := sslProtocols nginxProxy;
     sslSessionCache := sslSessionCache nginxProxy;
     sslSessionTimeout := sslSessionTimeout nginxProxy;
     sslStapling := sslStapling nginxProxy |}.

Definition set_enableHttp (v : option bool) (nginxProxy : NginxProxy) : NginxProxy :=
  {| id := id nginxProxy;
     domains := domains nginxProxy;
     enableHttp := v;
     enableHttps := enableHttps nginxProxy;
     redirectHttps := redirectHttps nginxProxy;
     application := application nginxProxy;
     certificate := certificate nginxProxy;
     sslCiphers := sslCiphers nginxProxy;
     sslPreferServerCiphers := sslPreferServerCiphers nginxProxy;
     sslProtocols := sslProtocols nginxProxy;
     sslSessionCache := sslSessionCache nginxProxy;
     sslSessionTimeout := sslSessionTimeout nginxProxy;
     sslStapling := sslStapling nginxProxy |}.

Definition set_enableHttps (v : option bool) (nginxProxy : NginxProxy) : NginxProxy :=
  {| id := id nginxProxy;
     domains := domains nginxProxy;
     enableHttp := enableHttp nginxProxy;
     enableHttps := v;
     redirectHttps := redirectHttps nginxProxy;
     application := application nginxProxy;
     certificate := certificate nginxProxy;
     sslCiphers := sslCiphers nginxProxy;
     sslPreferServerCiphers := sslPreferServerCiphers nginxProxy;
     sslProtocols := sslProtocols nginxProxy;
     sslSessionCache := sslSessionCache nginxProxy;
     sslSessionTimeout := sslSessionTimeout nginxProxy;
     sslStapling := sslStapling nginxProxy |}.

Definition set_application (v : option Application) (nginxProxy : NginxProxy) : NginxProxy :=
  {| id := id nginxProxy;
     domains := domains nginxProxy;
     enableHttp := enableHttp nginxProxy;
     enableHttps := enableHttps nginxProxy;
     redirectHttps := redirectHttps nginxProxy;
     application := v;
     certificate := certificate nginxProxy;
     sslCiphers := sslCiphers nginxProxy;
     sslPreferServerCiphers := sslPreferServerCiphers nginxProxy;
     sslProtocols := sslProtocols nginxProxy;
     sslSessionCache := sslSessionCache nginxProxy;
     sslSessionTimeout := sslSessionTimeout nginxProxy;
     sslStapling := sslStapling nginxProxy |}.

Definition set_certificate (v : option Certificate) (nginxProxy : NginxProxy) : NginxProxy :=
  {| id := id nginxProxy;
     domains := domains nginxProxy;
     enableHttp := enableHttp nginxProxy;
     enableHttps := enableHttps nginxProxy;
     redirectHttps := redirectHttps nginxProxy;
     application := application nginxProxy;
     certificate := v;
     sslCiphers := sslCiphers nginxProxy;
     sslPreferServerCiphers := sslPreferServerCiphers nginxProxy;
     sslProtocols := sslProtocols nginxProxy;
     sslSessionCache := sslSessionCache nginxProxy;
     sslSessionTimeout := sslSessionTimeout nginxProxy;
     sslStapling := sslStapling nginxProxy |}.

Definition set_sslCiphers (v : JsValue) (nginxProxy : NginxProxy) : NginxProxy :=
  {| id := id nginxProxy;
     domains := domains nginxProxy;
     enableHttp := enableHttp nginxProxy;
     enableHttps := enableHttps nginxProxy;
     redirectHttps := redirectHttps nginxProxy;
     application := application nginxProxy;
     certificate := certificate nginxProxy;
     sslCiphers := v;
     sslPreferServerCiphers := sslPreferServerCiphers nginxProxy;
     sslProtocols := sslProtocols nginxProxy;
     sslSessionCache := sslSessionCache nginxProxy;
     sslSessionTimeout := sslSessionTimeout nginxProxy;
     sslStapling := sslStapling nginxProxy |}.

Definition set_sslPreferServerCiphers (v : JsValue) (nginxProxy : NginxProxy) : NginxProxy :=
  {| id := id nginxProxy;
     domains := domains nginxProxy;
     enableHttp := enableHttp nginxProxy;
     enableHttps := enableHttps nginxProxy;
     redirectHttps := redirectHttps nginxProxy;
     application := application nginxProxy;
     certificate := certificate nginxProxy;
     sslCiphers := sslCiphers nginxProxy;
     sslPreferServerCiphers := v;
     sslProtocols := sslProtocols nginxProxy;
     sslSessionCache := sslSessionCache nginxProxy;
     sslSessionTimeout := sslSessionTimeout nginxProxy;
     sslStapling := sslStapling nginxProxy |}.

Definition set_sslProtocols (v : JsValue) (nginxProxy : NginxProxy) : NginxProxy :=
  {| id := id nginxProxy;
     domains := domains nginxProxy;
     enableHttp := enableHttp nginxProxy;
     enableHttps := enableHttps nginxProxy;
     redirectHttps := redirectHttps nginxProxy;
     application := application nginxProxy;
     certificate := certificate nginxProxy;
     sslCiphers := sslCiphers nginxProxy;
     sslPreferServerCiphers := sslPreferServerCiphers nginxProxy;
     sslProtocols := v;
     sslSessionCache := sslSessionCache nginxProxy;
     sslSessionTimeout := sslSessionTimeout nginxProxy;
     sslStapling := sslStapling nginxProxy |}.

Definition set_sslSessionCache (v : JsValue) (nginxProxy : NginxProxy) : NginxProxy :=
  {| id := id nginxProxy;
     domains := domains nginxProxy;
     enableHttp := enableHttp nginxProxy;
     enableHttps := enableHttps nginxProxy;
     redirectHttps := redirectHttps nginxProxy;
     application := application nginxProxy;
     certificate := certificate nginxProxy;
     sslCiphers := sslCiphers nginxProxy;
     sslPreferServerCiphers := sslPreferServerCiphers nginxProxy;
     sslProtocols := sslProtocols nginxProxy;
     sslSessionCache := v;
     sslSessionTimeout := sslSessionTimeout nginxProxy;
     sslStapling := sslStapling nginxProxy |}.

Definition set_sslSessionTimeout (v : JsValue) (nginxProxy : NginxProxy) : NginxProxy :=
  {| id := id nginxProxy;
     domains := domains nginxProxy;
     enableHttp := enableHttp nginxProxy;
     enableHttps := enableHttps nginxProxy;
     redirectHttps := redirectHttps nginxProxy;
     application := application nginxProxy;
     certificate := certificate nginxProxy;
     sslCiphers := sslCiphers nginxProxy;
     sslPreferServerCiphers := sslPreferServerCiphers nginxProxy;
     sslProtocols := sslProtocols nginxProxy;
     sslSessionCache := sslSessionCache nginxProxy;
     sslSessionTimeout := v;
     sslStapling := sslStapling nginxProxy |}.

Definition set_sslStapling (v : JsValue) (nginxProxy : NginxProxy) : NginxProxy :=
  {| id := id nginxProxy;
     domains := domains nginxProxy;
     enableHttp := enableHttp nginxProxy;
     enableHttps := enableHttps nginxProxy;
     redirectHttps := redirectHttps nginxProxy;
     application := application nginxProxy;
     certificate := certificate nginxProxy;
     sslCiphers := sslCiphers nginxProxy;
     sslPreferServerCiphers := sslPreferServerCiphers nginxProxy;
     sslProtocols := sslProtocols nginxProxy;
     sslSessionCache := sslSessionCache nginxProxy;
     sslSessionTimeout := sslSessionTimeout nginxProxy;
     sslStapling := v |}.

Definition create (options : Options) : Prog NginxProxy :=
  if validateId (o_id options) then Throw (ServerError 400 illegalId)
  else
    trigger GetRepository ;;
    let nginxProxy := newNginxProxy in
    let nginxProxy := set_domains (o_domains options) nginxProxy in
    let nginxProxy := set_enableHttp (o_enableHttp options) nginxProxy in
    let nginxProxy := set_enableHttps (o_enableHttps options) nginxProxy in
    let nginxProxy := set_application (o_application options) nginxProxy in
    let nginxProxy := set_certificate (o_certificate options) nginxProxy in
    let nginxProxy := set_sslCiphers (o_sslCiphers options) nginxProxy in
    let nginxProxy :=
      set_sslPreferServerCiphers (o_sslPreferServerCiphers options) nginxProxy in
    let nginxProxy := set_sslProtocols (o_sslProtocols options) nginxProxy in
    let nginxProxy := set_sslSessionCache (o_sslSessionCache options) nginxProxy in
    let nginxProxy :=
      set_sslSessionTimeout (o_sslSessionTimeout options) nginxProxy in
    let nginxProxy := set_sslStapling (o_sslStapling options) nginxProxy in
    nginxProxy <- trigger (RepoSave nginxProxy) ;;
    apply nginxProxy ;;
    ret nginxProxy.

Definition update (id : JsValue) (options : Options) : Prog NginxProxy :=
  if validateId id then Throw (ServerError 400 illegalId)
  else
    trigger GetRepository ;;
    nginxProxy <- trigger (RepoFindOne id) ;;
    match nginxProxy with
    | None => Throw (ServerError 404 noNginxProxy)
    | Some nginxProxy =>
        let nginxProxy :=
          if truthy (o_domains options)
          then set_domains (o_domains options) nginxProxy else nginxProxy in
        let nginxProxy :=
          if truthy (o_enableHttp options)
          then set_enableHttp (o_enableHttp options) nginxProxy
          else nginxProxy in
        let nginxProxy :=
          if truthy (o_enableHttps options)
          then set_enableHttps (o_enableHttps options) nginxProxy
          else nginxProxy in
        let nginxProxy :=
          if truthy (o_application options)
          then set_application (o_application options) nginxProxy
          else nginxProxy in
        let nginxProxy :=
          if truthy (o_certificate options)
          then set_certificate (o_certificate options) nginxProxy
          else nginxProxy in
        nginxProxy <- trigger (RepoSave nginxProxy) ;;
        let a := nginxProxy in
        trigger (ConsoleLog [LogString "a => "; LogProxy a]) ;;
        apply nginxProxy ;;
        ret nginxProxy
    end.

Definition remove (id : JsValue) : Prog unit :=
  if validateId id then Throw (ServerError 400 illegalId)
  else
    trigger GetRepository ;;
    nginxProxy <- trigger (RepoFindOne id) ;;
    match nginxProxy with
    | None => Throw (ServerError 404 noNginxProxy)
    | Some nginxProxy =>
        trigger (RepoDelete id) ;;
        let CONFIG_PATH := getNginxConfigPath nginxProxy in
        exists_ <- trigger (FsPathExists CONFIG_PATH) ;;
        if (exists_ : bool) then trigger (FsRemove CONFIG_PATH) else ret tt
    end.

(* ===================================================================== *)
(** ** Running a program against its collaborators *)
(* ===================================================================== *)

(** One external call and what it answered. *)
Inductive Access : Type :=
| Accessed (X : Type) (e : Event X) (answer : Result X).

Arguments Accessed {X} e answer.

Section Run.

(** The collaborators: a state and, for each call, its answer (or its
    failure) and the next state. *)
Variable World : Type.
Variable handle : forall X : Type, Event X -> World -> Result X * World.

(** The outcome of a program, the final state and the calls made, in
    order. *)
Fixpoint run {A : Type} (p : Prog A) (w : World)
  : Result A * World * list Access :=
  match p with
  | Ret a => (Ok a, w, [])
  | Throw e => (Raise e, w, [])
  | Vis e k =>
      match handle e w with
      | (Ok x, w') =>
          let '(r, w'', t) := run (k x) w' in
          (r, w'', Accessed e (Ok x) :: t)
      | (Raise err, w') => (Raise err, w', [Accessed e (Raise err)])
      end
  end.

End Run.

(** A test double: a repository whose every lookup answers [row], whose
    save answers the entity unchanged, and a file system with no file; the
    state counts the calls. *)
Definition stub (row : option NginxProxy) (X : Type) (e : Event X) (n : nat)
  : Result X * nat :=
  (match e in Event X return Result X with
   | GetRepository => Ok tt
   | RepoFind => Ok match row with Some r => [r] | None => [] end
   | RepoFindOne _ => Ok row
   | RepoSave entity => Ok entity
   | RepoDelete _ => Ok tt
   | FsEnsureDir _ => Ok tt
   | FsWriteFile _ _ => Ok tt
   | FsPathExists _ => Ok false
   | FsRemove _ => Ok tt
   | ConsoleLog _ => Ok tt
   end, S n).

(* ===================================================================== *)
(** ** The vocabulary of the specification *)
(* ===================================================================== *)

(** "[domains] is absent/empty" and its contrary. *)
Definition NoDomains (proxy : NginxProxy) : Prop :=
  domains proxy = None \/ domains proxy = Some "".

Definition NonEmptyDomains (proxy : NginxProxy) : Prop :=
  exists d, domains proxy = Some d /\ d <> "".

(** "a ComputeTarget with [disabled != true]". *)
Definition Enabled (m : Mechine) : Prop := disabled m <> Some true.

(** "in the application's original order, the host of every ComputeTarget
    with [disabled != true]". *)
Fixpoint enabled_hosts (ms : list Mechine) : list string :=
  match ms with
  | [] => []
  | m :: ms' =>
      match disabled m with
      | Some true => enabled_hosts ms'
      | _ => host m :: enabled_hosts ms'
      end
  end.

(** The hosts of a pool. *)
Definition targets (pool : NginxUpstreamConfig) : list string :=
  map server_host (servers pool).

(** A proxy location (4.2): path [/], the two header directives and the
    forward target [http://<poolName>]; no rewrite. *)
Definition IsProxyLocation (poolName : string) (l : NginxLocation) : Prop :=
  path l = "/" /\
  proxySetHeader l =
    Some [ {| header_key := "X-Real-IP"; header_value := "$remote_addr" |};
           {| header_key := "Host"; header_value := "$http_host" |} ] /\
  proxyPass l = Some ("http://" ++ poolName) /\
  rewrite l = None.

(** "the HTTPS equivalent of the same path on the same server name"
    (4.2): where a request for [uri] on [server_name] should be sent. *)
Definition https_equivalent (server_name uri : string) : string :=
  "https://" ++ server_name ++ uri.

(** What nginx does with a rewrite rule, for rules of the kind the
    controller emits.  This is nginx's documented behaviour
    (ngx_http_rewrite_module), not code of the repository: the pattern is
    matched against the request path and the replacement is expanded, [$1]
    standing for the first group and [$name] for a variable.  The model
    covers a pattern that is anchored at the start, continues with literal
    characters and may end in one group that takes the rest of the path,
    and a replacement over [$server_name] and [$1]. *)
Definition is_variable_char (c : ascii) : bool :=
  let n := nat_of_ascii c in
  ((48 <=? n) && (n <=? 57) || (65 <=? n) && (n <=? 90) ||
   (97 <=? n) && (n <=? 122) || (n =? 95))%nat.

Definition is_digit_char (c : ascii) : bool :=
  let n := nat_of_ascii c in ((48 <=? n) && (n <=? 57))%nat.

Definition variable_value (server_name name : string) : string :=
  if (name =? "server_name")%string then server_name else "".

(** The replacement expanded; [reading] is the variable name read so far
    after a [$]. *)
Fixpoint expand (server_name capture : string) (reading : option string)
  (replacement : string) : string :=
  match replacement with
  | EmptyString =>
      match reading with
      | Some EmptyString => "$"
      | Some name => variable_value server_name name
      | None => ""
      end
  | String c rest =>
      match reading with
      | None =>
          if Ascii.eqb c "$" then expand server_name capture (Some "") rest
          else String c (expand server_name capture None rest)
      | Some EmptyString =>
          if is_digit_char c then
            (if Ascii.eqb c "1" then capture else "") ++
            expand server_name capture None rest
          else if is_variable_char c then
            expand server_name capture (Some (String c "")) rest
          else String "$" (String c (expand server_name capture None rest))
      | Some name =>
          if is_variable_char c then
            expand server_name capture (Some (name ++ String c "")) rest
          else
            variable_value server_name name ++
            (if Ascii.eqb c "$" then expand server_name capture (Some "") rest
             else String c (expand server_name capture None rest))
      end
  end.

(** The pattern after its anchor against the request path: the first group
    when the path matches (the empty string when the pattern has none). *)
Fixpoint match_anchored (pattern uri : string) : option string :=
  if (pattern =? "(.*)")%string then Some uri
  else
    match pattern with
    | EmptyString => Some ""
    | String p pattern' =>
        match uri with
        | String u uri' =>
            if Ascii.eqb p u then match_anchored pattern' uri' else None
        | EmptyString => None
        end
    end.

(** The address a request for [uri] is sent to by the rule, if the rule
    applies. *)
Definition rewrite_target (rule : NginxRewrite) (server_name uri : string)
  : option string :=
  match from rule with
  | String "^" pattern =>
      match match_anchored pattern uri with
      | Some capture => Some (expand server_name capture None (to rule))
      | None => None
      end
  | _ => None
  end.

(** "an id that is a positive number". *)
Definition IsPositiveNumber (v : JsValue) : Prop :=
  match v with
  | JsNumber PosInfinity => True
  | JsNumber (Finite q) => (0 < q)%Q
  | _ => False
  end.

(** What a run shows of the repository: the entities handed to [save],
    the lookups with what they found, and whether a call was made at all. *)
Definition saved (a : Access) : list NginxProxy :=
  match a with
  | Accessed e _ =>
      match e with
      | RepoSave entity => [entity]
      | _ => []
      end
  end.

Definition looked_up (a : Access) : list (JsValue * NginxProxy) :=
  match a with
  | Accessed e answer =>
      match e in Event X return Result X -> list (JsValue * NginxProxy) with
      | RepoFindOne i =>
          fun answer =>
            match answer with
            | Ok (Some found) => [(i, found)]
            | _ => []
            end
      | _ => fun _ => []
      end answer
  end.

Definition saves (t : list Access) : list NginxProxy := flat_map saved t.

Definition lookups (t : list Access) : list (JsValue * NginxProxy) :=
  flat_map looked_up t.

(** The first call of a run is [getRepository]. *)
Definition StartsAtRepository (t : list Access) : Prop :=
  exists answer rest, t = Accessed GetRepository answer :: rest.

(** The outcome of a call rejected for its id: the 400 error, the
    collaborators untouched, no call made. *)
Definition RejectedId {A World : Type} (w : World)
  (outcome : Result A * World * list Access) : Prop :=
  outcome = (Raise (ServerError 400 illegalId), w, []).

(** What [update] may do to a stored definition: each of the five
    properties takes the option when the option is truthy and keeps its
    value otherwise; every other property keeps its value. *)
Definition UpdatedBy (options : Options) (stored entity : NginxProxy) : Prop :=
  domains entity =
    (if truthy (o_domains options) then o_domains options
     else domains stored) /\
  enableHttp entity =
    (if truthy (o_enableHttp options) then o_enableHttp options
     else enableHttp stored) /\
  enableHttps entity =
    (if truthy (o_enableHttps options) then o_enableHttps options
     else enableHttps stored) /\
  application entity =
    (if truthy (o_application options) then o_application options
     else application stored) /\
  certificate entity =
    (if truthy (o_certificate options) then o_certificate options
     else certificate stored) /\
  id entity = id stored /\
  redirectHttps entity = redirectHttps stored /\
  sslCiphers entity = sslCiphers stored /\
  sslPreferServerCiphers entity = sslPreferServerCiphers stored /\
  sslProtocols entity = sslProtocols stored /\
  sslSessionCache entity = sslSessionCache stored /\
  sslSessionTimeout entity = sslSessionTimeout stored /\
  sslStapling entity = sslStapling stored.

(** No flag goes from true to false and no domains, application or
    certificate is lost. *)
Definition NothingCleared (stored entity : NginxProxy) : Prop :=
  (enableHttp stored = Some true -> enableHttp entity = Some true) /\
  (enableHttps stored = Some true -> enableHttps entity = Some true) /\
  (NonEmptyDomains stored -> NonEmptyDomains entity) /\
  (application stored <> None -> application entity <> None) /\
  (certificate stored <> None -> certificate entity <> None).

(** An example definition: [a.com] with two machines, the second one
    disabled, and a certificate. *)
Definition sampleApplication : Application :=
  {| key := "api";
     mechines := Some [ {| host := "10.0.0.1"; disabled := Some false |};
                        {| host := "10.0.0.2"; disabled := Some true |} ] |}.

Definition sampleCertificate : Certificate :=
  {| crt := "/etc/ssl/a.com.crt"; crtKey := "/etc/ssl/a.com.key" |}.

Definition sampleProxy (http https redirect : option bool)
  (app : option Application) (cert : option Certificate) : NginxProxy :=
  {| id := Some 7; domains := Some "a.com";
     enableHttp := http; enableHttps := https; redirectHttps := redirect;
     application := app; certificate := cert;
     sslCiphers := JsString "HIGH:!aNULL:!MD5";
     sslPreferServerCiphers := JsBoolean true;
     sslProtocols := JsArray [JsString "TLSv1.2"; JsString "TLSv1.3"];
     sslSessionCache := JsString "shared:SSL:1m";
     sslSessionTimeout := JsString "5m";
     sslStapling := JsBoolean false |}.

(* ===================================================================== *)
(** ** Further observations of trees, programs and runs *)
(* ===================================================================== *)

(** The blocks of a tree and the locations of a block. *)
Definition blocks (config : NginxConfig) : list NginxService :=
  (match http config with Some b => [b] | None => [] end ++
   match https config with Some b => [b] | None => [] end)%list.

Definition locations (block : NginxService) : list NginxLocation :=
  match location block with
  | Some ls => ls
  | None => []
  end.

(** The same definition with another [redirectHttps]. *)
Definition with_redirectHttps (v : option bool) (proxy : NginxProxy)
  : NginxProxy :=
  {| id := id proxy; domains := domains proxy;
     enableHttp := enableHttp proxy; enableHttps := enableHttps proxy;
     redirectHttps := v;
     application := application proxy; certificate := certificate proxy;
     sslCiphers := sslCiphers proxy;
     sslPreferServerCiphers := sslPreferServerCiphers proxy;
     sslProtocols := sslProtocols proxy;
     sslSessionCache := sslSessionCache proxy;
     sslSessionTimeout := sslSessionTimeout proxy;
     sslStapling := sslStapling proxy |}.

(** A string without the separator of pool names. *)
Fixpoint underscore_free (s : string) : Prop :=
  match s with
  | EmptyString => True
  | String c s' => c <> "_"%char /\ underscore_free s'
  end.

(** A plain file name: not empty, and without a path separator or a dot,
    so that it names an entry of the directory it is joined to and nothing
    above or below that directory. *)
Fixpoint plain_chars (s : string) : Prop :=
  match s with
  | EmptyString => True
  | String c s' =>
      c <> "/"%char /\ c <> "\"%char /\ c <> "."%char /\ plain_chars s'
  end.

Definition PlainFileName (s : string) : Prop := s <> "" /\ plain_chars s.

(** The configuration directory, or a file directly in it. *)
Definition InConfDir (file : Path) : Prop :=
  file = NGINX_CONF_DIR \/
  exists filename,
    file = join NGINX_CONF_DIR filename /\ PlainFileName filename.

(** The kinds of external call. *)
Definition ReadsRepository (X : Type) (e : Event X) : Prop :=
  match e with
  | GetRepository | RepoFind | RepoFindOne _ => True
  | _ => False
  end.

Definition StaysInConfDir (X : Type) (e : Event X) : Prop :=
  match e with
  | FsEnsureDir file | FsWriteFile file _ | FsPathExists file
  | FsRemove file => InConfDir file
  | _ => True
  end.

Definition LeavesRepository (X : Type) (e : Event X) : Prop :=
  match e with
  | GetRepository | RepoFind | RepoFindOne _ | RepoSave _ | RepoDelete _ =>
      False
  | _ => True
  end.

(** Every call a program can make, whatever the answers, satisfies [P]. *)
Fixpoint always {A : Type} (P : forall X : Type, Event X -> Prop)
  (p : Prog A) : Prop :=
  match p with
  | Ret _ | Throw _ => True
  | Vis e k => P _ e /\ forall x, always P (k x)
  end.

Definition call_satisfies (P : forall X : Type, Event X -> Prop) (a : Access)
  : Prop :=
  match a with
  | Accessed e _ => P _ e
  end.

(** What a run shows of the file system and of the deletions. *)
Definition written (a : Access) : list (Path * Text) :=
  match a with
  | Accessed e _ =>
      match e with
      | FsWriteFile file data => [(file, data)]
      | _ => []
      end
  end.

Definition removed (a : Access) : list Path :=
  match a with
  | Accessed e _ =>
      match e with
      | FsRemove file => [file]
      | _ => []
      end
  end.

Definition deleted (a : Access) : list JsValue :=
  match a with
  | Accessed e _ =>
      match e with
      | RepoDelete i => [i]
      | _ => []
      end
  end.

(** The entities that [save] answered with. *)
Definition save_answer (a : Access) : list NginxProxy :=
  match a with
  | Accessed e answer =>
      match e in Event X return Result X -> list NginxProxy with
      | RepoSave _ =>
          fun answer =>
            match answer with
            | Ok after => [after]
            | Raise _ => []
            end
      | _ => fun _ => []
      end answer
  end.

(** The errors the collaborators answered with. *)
Definition failure (a : Access) : list Exn :=
  match a with
  | Accessed _ answer =>
      match answer with
      | Ok _ => []
      | Raise err => [err]
      end
  end.

Definition writes (t : list Access) : list (Path * Text) := flat_map written t.
Definition removals (t : list Access) : list Path := flat_map removed t.
Definition deletions (t : list Access) : list JsValue := flat_map deleted t.
Definition save_answers (t : list Access) : list NginxProxy :=
  flat_map save_answer t.
Definition failures (t : list Access) : list Exn := flat_map failure t.

(** A call without its dependent typing: which call it was, and what it
    answered. *)
Definition call_kind (a : Access) : nat :=
  match a with
  | Accessed e _ =>
      match e with
      | GetRepository => 0
      | RepoFind => 1
      | RepoFindOne _ => 2
      | RepoSave _ => 3
      | RepoDelete _ => 4
      | FsEnsureDir _ => 5
      | FsWriteFile _ _ => 6
      | FsPathExists _ => 7
      | FsRemove _ => 8
      | ConsoleLog _ => 9
      end%nat
  end.

Inductive Answer : Type :=
| Failed (err : Exn)
| Done
| Listed (rows : list NginxProxy)
| Found (row : option NginxProxy)
| Stored (after : NginxProxy)
| Existed (b : bool).

Definition answer_of (a : Access) : Answer :=
  match a with
  | Accessed e answer =>
      match answer with
      | Raise err => Failed err
      | Ok x =>
          match e in Event X return X -> Answer with
          | RepoFind => fun rows => Listed rows
          | RepoFindOne _ => fun row => Found row
          | RepoSave _ => fun after => Stored after
          | FsPathExists _ => fun b => Existed b
          | _ => fun _ => Done
          end x
      end
  end.

(** The outcome, the final state and the calls of a run. *)
Definition outcome {A World : Type} (r : Result A * World * list Access)
  : Result A := fst (fst r).

Definition calls {A World : Type} (r : Result A * World * list Access)
  : list Access := snd r.

(** A second test double: as [stub], with every configuration file on
    disk. *)
Definition stubOnDisk (row : option NginxProxy) (X : Type) (e : Event X)
  (n : nat) : Result X * nat :=
  match e in Event X return Result X * nat with
  | FsPathExists _ => (Ok true, S n)
  | e' => stub row e' n
  end.

(** Options that change nothing, options with a negative id, and options
    that turn HTTPS on. *)
Definition noOptions : Options :=
  {| o_id := JsUndefined; o_domains := None; o_enableHttp := None;
     o_enableHttps := None; o_application := None; o_certificate := None;
     o_sslCiphers := JsUndefined; o_sslPreferServerCiphers := JsUndefined;
     o_sslProtocols := JsUndefined; o_sslSessionCache := JsUndefined;
     o_sslSessionTimeout := JsUndefined; o_sslStapling := JsUndefined |}.

Definition negativeIdOptions : Options :=
  {| o_id := JsNumber (Finite (-1)); o_domains := Some "a.com";
     o_enableHttp := Some true; o_enableHttps := None;
     o_application := None; o_certificate := None;
     o_sslCiphers := JsUndefined; o_sslPreferServerCiphers := JsUndefined;
     o_sslProtocols := JsUndefined; o_sslSessionCache := JsUndefined;
     o_sslSessionTimeout := JsUndefined; o_sslStapling := JsUndefined |}.

Definition httpsOptions : Options :=
  {| o_id := JsUndefined; o_domains := Some "b.com"; o_enableHttp := None;
     o_enableHttps := Some true; o_application := None;
     o_certificate := Some sampleCertificate;
     o_sslCiphers := JsUndefined; o_sslPreferServerCiphers := JsUndefined;
     o_sslProtocols := JsUndefined; o_sslSessionCache := JsUndefined;
     o_sslSessionTimeout := JsUndefined; o_sslStapling := JsUndefined |}.

(* ===================================================================== *)
(** ** Facts about values and builders *)
(* ===================================================================== *)

Lemma truthy_domains (proxy : NginxProxy) :
  truthy (domains proxy) = true <-> NonEmptyDomains proxy.
Proof.
  unfold NonEmptyDomains. destruct (domains proxy) as [[|c s]|]; cbn; split.
  - discriminate.
  - intros (d & E & N). injection E as <-. now elim N.
  - intros _. exists (String c s). split; [reflexivity | discriminate].
  - reflexivity.
  - discriminate.
  - intros (d & E & _). discriminate.
Qed.

Lemma falsy_domains (proxy : NginxProxy) :
  truthy (domains proxy) = false <-> NoDomains proxy.
Proof.
  unfold NoDomains. destruct (domains proxy) as [[|c s]|]; compute; split;
    try discriminate; auto; intros [E | E]; discriminate.
Qed.

Lemma truthy_flag (b : option bool) : truthy b = true <-> b = Some true.
Proof.
  destruct b as [[|]|]; compute; split; congruence.
Qed.

Lemma falsy_flag (b : option bool) : truthy b = false <-> b <> Some true.
Proof.
  destruct b as [[|]|]; compute; split; congruence.
Qed.

(** The gate of the pool is the presence of the collection, whatever its
    length. *)
Lemma hasMechines_iff (proxy : NginxProxy) :
  hasMechines proxy = true <->
  exists app ms, application proxy = Some app /\ mechines app = Some ms.
Proof.
  unfold hasMechines.
  destruct (application proxy) as [[k [l|]]|]; compute; split; intros H;
    try discriminate H; try reflexivity.
  - now exists {| key := k; mechines := Some l |}, l.
  - destruct H as (app & ms & E & M). injection E as <-. discriminate.
  - destruct H as (app & ms & E & _). discriminate.
Qed.

(** The servers of a pool are the enabled hosts, in order. *)
Lemma filter_map_enabled_hosts (ms : list Mechine) :
  map server_host
    (map (fun mechine => {| server_host := host mechine |})
       (filter (fun mechine => negb (truthy (disabled mechine))) ms))
  = enabled_hosts ms.
Proof.
  induction ms as [|m ms IH]; [reflexivity|].
  cbn [filter enabled_hosts].
  destruct (disabled m) as [[|]|]; cbn; rewrite ?IH; reflexivity.
Qed.

Lemma enabled_hosts_In (ms : list Mechine) (h : string) :
  In h (enabled_hosts ms) <-> exists m, In m ms /\ Enabled m /\ host m = h.
Proof.
  unfold Enabled. induction ms as [|m ms IH]; cbn.
  - split; [tauto | intros (m & [] & _)].
  - destruct (disabled m) as [[|]|] eqn:D; cbn; rewrite IH; split.
    + intros (m' & I & E & H). exists m'. auto.
    + intros (m' & [<- | I] & E & H); [congruence | eauto].
    + intros [<- | (m' & I & E & H)]; [exists m | exists m'];
        repeat split; auto; congruence.
    + intros (m' & [<- | I] & E & H); [left | right]; eauto.
    + intros [<- | (m' & I & E & H)]; [exists m | exists m'];
        repeat split; auto; congruence.
    + intros (m' & [<- | I] & E & H); [left | right]; eauto.
Qed.

Lemma genNginxUpstream_ok (proxy : NginxProxy) app ms :
  application proxy = Some app -> mechines app = Some ms ->
  genNginxUpstream proxy =
  Ok {| name := key app ++ "_" ++ template_of_id (id proxy);
        servers := map (fun mechine => {| server_host := host mechine |})
                     (filter (fun mechine => negb (truthy (disabled mechine)))
                        ms) |}.
Proof.
  intros A M. unfold genNginxUpstream. rewrite A. cbn. rewrite M. reflexivity.
Qed.

Lemma genNginxSSL_ok (proxy : NginxProxy) cert :
  certificate proxy = Some cert ->
  genNginxSSL proxy =
  Ok {| ssl_certificate := crt cert;
        certificateKey := crtKey cert;
        sessionTimeout := sslSessionTimeout proxy;
        protocols := sslProtocols proxy;
        ciphers := sslCiphers proxy;
        sessionCache := sslSessionCache proxy;
        preferServerCiphers := sslPreferServerCiphers proxy;
        stapling := sslStapling proxy |}.
Proof.
  intros C. unfold genNginxSSL. rewrite C. reflexivity.
Qed.

(** Case analysis on the properties of a definition that the compiler
    branches on. *)
Ltac case_property o :=
  match type of o with
  | option bool => destruct o as [[|]|]
  | option string => destruct o as [[|? ?]|]
  | option Application => destruct o as [[? [?|]]|]
  | option _ => destruct o as [?|]
  end.

Ltac case_proxy proxy :=
  let d := fresh "d" in
  let eh := fresh "eh" in
  let es := fresh "es" in
  let rh := fresh "rh" in
  let app := fresh "app" in
  let cert := fresh "cert" in
  destruct proxy as [? d eh es rh app cert ? ? ? ? ? ?];
  case_property d; case_property eh; case_property es;
  case_property rh; case_property app; case_property cert.

(** Once the case analysis has made the definition concrete enough, the
    compiler runs. *)
Ltac run_compiler :=
  cbv [NonEmptyDomains NoDomains Enabled IsProxyLocation] in *;
  cbn in *.

(* ===================================================================== *)
(** ** The configuration compiler *)
(* ===================================================================== *)

(** C8, first half as a lemma of its own: the compiler returns a tree for
    every definition. *)
Lemma genNginxConfig_total (proxy : NginxProxy) :
  exists config, genNginxConfig proxy = Ok config.
Proof.
  case_proxy proxy; cbn; eauto.
Qed.

(** With domains, the pool of the tree is there exactly when the collection
    is, and it is the one [genNginxUpstream] builds. *)
Lemma genNginxConfig_upstream (proxy : NginxProxy) config :
  truthy (domains proxy) = true ->
  genNginxConfig proxy = Ok config ->
  upstream config =
  (if hasMechines proxy
   then match genNginxUpstream proxy with Ok u => Some u | Raise _ => None end
   else None).
Proof.
  intros D G. case_proxy proxy; cbn in *;
    try discriminate D; injection G as <-; reflexivity.
Qed.

(** With domains, the tree has a pool exactly when the definition has an
    application whose collection is present, empty or not. *)
Lemma pool_gate_is_presence (proxy : NginxProxy) :
  NonEmptyDomains proxy ->
  exists config,
    genNginxConfig proxy = Ok config /\
    (upstream config <> None <->
     exists app ms, application proxy = Some app /\ mechines app = Some ms).
Proof.
  intros D. apply truthy_domains in D.
  destruct (genNginxConfig_total proxy) as [config G].
  exists config. split; [exact G|].
  rewrite (genNginxConfig_upstream proxy D G), <- hasMechines_iff.
  destruct (hasMechines proxy) eqn:H; [| split; congruence].
  apply hasMechines_iff in H. destruct H as (app & ms & A & M).
  rewrite (genNginxUpstream_ok proxy A M). split; congruence.
Qed.

(** The three end-to-end examples of the specification (section 8). *)
Example end_to_end_1 :
  genNginxConfig (sampleProxy (Some true) None (Some false) None None) =
  Ok {| upstream := None;
        http := Some {| serviceName := Some "a.com"; location := Some [];
                        ssl := None |};
        https := None |}.
Proof. reflexivity. Qed.

Example end_to_end_2 :
  genNginxConfig
    (sampleProxy (Some true) None (Some true)
       (Some {| key := "api";
                mechines :=
                  Some [ {| host := "10.0.0.1"; disabled := None |};
                         {| host := "10.0.0.2"; disabled := Some false |} ] |})
       None) =
  Ok {| upstream :=
          Some {| name := "api_7";
                  servers := [ {| server_host := "10.0.0.1" |};
                               {| server_host := "10.0.0.2" |} ] |};
        http := Some {| serviceName := Some "a.com";
                        location := Some [genRedirectHttpsLocation];
                        ssl := None |};
        https := None |}.
Proof. reflexivity. Qed.

Example end_to_end_3 :
  exists s,
    genNginxConfig
      (sampleProxy None (Some true) None (Some sampleApplication)
         (Some sampleCertificate)) =
    Ok {| upstream :=
            Some {| name := "api_7";
                    servers := [ {| server_host := "10.0.0.1" |} ] |};
          http := None;
          https := Some {| serviceName := Some "a.com";
                           location := Some [genServiceLocation "api_7"];
                           ssl := Some s |} |}.
Proof. eexists. reflexivity. Qed.

(** C1 (the code departs from the claim): an application whose collection
    is there but empty gets a pool, with no server, although it has no
    target; the claim attaches a pool only for a non-empty collection. *)
Theorem C1_empty_collection_gets_a_pool :
  let proxy :=
    sampleProxy (Some true) None None
      (Some {| key := "api"; mechines := Some [] |}) None in
  NonEmptyDomains proxy /\
  genNginxConfig proxy =
  Ok {| upstream := Some {| name := "api_7"; servers := [] |};
        http := Some {| serviceName := Some "a.com";
                        location := Some [genServiceLocation "api_7"];
                        ssl := None |};
        https := None |}.
Proof.
  split; [| reflexivity].
  exists "a.com". split; [reflexivity | discriminate].
Qed.

(** The early return of the compiler. *)
Lemma genNginxConfig_no_domains (proxy : NginxProxy) :
  NoDomains proxy -> genNginxConfig proxy = Ok emptyConfig.
Proof.
  intros N. apply falsy_domains in N.
  unfold genNginxConfig. rewrite N. reflexivity.
Qed.

(** C2: without domains (absent or empty) the compiler returns the empty
    tree: no pool, no HTTP block, no HTTPS block, whatever else the
    definition holds. *)
Theorem C2_no_domains_empty_tree (proxy : NginxProxy) :
  NoDomains proxy ->
  genNginxConfig proxy = Ok {| upstream := None; http := None; https := None |}.
Proof.
  exact (@genNginxConfig_no_domains proxy).
Qed.

Lemma C2_no_domains_empty_tree_witness :
  let proxy :=
    {| id := Some 7; domains := Some "";
       enableHttp := Some true; enableHttps := Some true;
       redirectHttps := Some false;
       application := Some sampleApplication;
       certificate := Some sampleCertificate;
       sslCiphers := JsUndefined; sslPreferServerCiphers := JsUndefined;
       sslProtocols := JsUndefined; sslSessionCache := JsUndefined;
       sslSessionTimeout := JsUndefined; sslStapling := JsUndefined |} in
  NoDomains proxy /\
  genNginxConfig proxy = Ok {| upstream := None; http := None; https := None |}.
Proof.
  intros proxy.
  assert (N : NoDomains proxy) by (right; reflexivity).
  split; [exact N | exact (C2_no_domains_empty_tree N)].
Defined.

(** C3: for an application with at least one enabled target, the pool is
    named [{application.key}_{id}] and its targets are the hosts of the
    targets with [disabled != true], in the order of the collection, no
    host of a disabled target among them (unless an enabled target has the
    same host); with domains, that pool is the one of the compiled tree. *)
Theorem C3_upstream_pool (proxy : NginxProxy) app ms :
  application proxy = Some app ->
  mechines app = Some ms ->
  (exists m, In m ms /\ Enabled m) ->
  exists pool,
    genNginxUpstream proxy = Ok pool /\
    name pool = key app ++ "_" ++ template_of_id (id proxy) /\
    (forall z, id proxy = Some z ->
               name pool = key app ++ "_" ++ string_of_Z z) /\
    targets pool = enabled_hosts ms /\
    targets pool <> [] /\
    (forall h, In h (targets pool) <->
               exists m, In m ms /\ Enabled m /\ host m = h) /\
    (NonEmptyDomains proxy ->
     exists config,
       genNginxConfig proxy = Ok config /\ upstream config = Some pool).
Proof.
  intros A M (m & Hin & Hen).
  eexists. split; [apply (genNginxUpstream_ok proxy A M)|].
  unfold targets; cbn [name servers]. rewrite filter_map_enabled_hosts.
  split; [reflexivity|]. split; [intros z I; rewrite I; reflexivity|].
  split; [reflexivity|]. split; [| split].
  - intros E.
    assert (Hh : In (host m) (enabled_hosts ms))
      by (apply enabled_hosts_In; eauto).
    rewrite E in Hh. exact Hh.
  - intros h. apply enabled_hosts_In.
  - intros D. apply truthy_domains in D.
    destruct (genNginxConfig_total proxy) as [config G].
    exists config. split; [exact G|].
    rewrite (genNginxConfig_upstream proxy D G).
    assert (H : hasMechines proxy = true) by (apply hasMechines_iff; eauto).
    rewrite H, (genNginxUpstream_ok proxy A M). reflexivity.
Qed.

Lemma C3_upstream_pool_witness :
  let proxy :=
    sampleProxy None (Some true) None (Some sampleApplication)
      (Some sampleCertificate) in
  exists pool,
    genNginxUpstream proxy = Ok pool /\
    name pool = "api_7" /\
    targets pool = ["10.0.0.1"].
Proof.
  intros proxy.
  destruct (@C3_upstream_pool proxy sampleApplication
              [ {| host := "10.0.0.1"; disabled := Some false |};
                {| host := "10.0.0.2"; disabled := Some true |} ]
              eq_refl eq_refl)
    as (pool & G & N & _ & T & _).
  - exists {| host := "10.0.0.1"; disabled := Some false |}.
    split; [left; reflexivity | discriminate].
  - exists pool. repeat split; assumption.
Defined.

(** C4: with domains and [enableHttps = true], the tree has an HTTPS block
    exactly when the definition has a certificate (none: no block and no
    failure); the block is named by the domains, its SSL object carries
    [crt], [crtKey] and the six TLS properties as they are, and it has one
    proxy location to the pool, or no location when there is no pool. *)
Theorem C4_https_block (proxy : NginxProxy) :
  NonEmptyDomains proxy ->
  enableHttps proxy = Some true ->
  exists config,
    genNginxConfig proxy = Ok config /\
    (https config <> None <-> certificate proxy <> None) /\
    forall block, https config = Some block ->
      serviceName block = domains proxy /\
      (exists cert,
         certificate proxy = Some cert /\
         ssl block =
         Some {| ssl_certificate := crt cert;
                 certificateKey := crtKey cert;
                 sessionTimeout := sslSessionTimeout proxy;
                 protocols := sslProtocols proxy;
                 ciphers := sslCiphers proxy;
                 sessionCache := sslSessionCache proxy;
                 preferServerCiphers := sslPreferServerCiphers proxy;
                 stapling := sslStapling proxy |}) /\
      match upstream config with
      | Some pool =>
          exists l, location block = Some [l] /\ IsProxyLocation (name pool) l
      | None => location block = Some []
      end.
Proof.
  intros D E. apply truthy_domains in D.
  case_proxy proxy; run_compiler; try discriminate;
    (eexists; split; [reflexivity|]; cbn; split;
     [split; congruence|]; intros block B; try discriminate B;
     injection B as <-; cbn; repeat split; eauto 10).
Qed.

Lemma C4_https_block_witness :
  let proxy :=
    sampleProxy None (Some true) None (Some sampleApplication)
      (Some sampleCertificate) in
  exists config,
    genNginxConfig proxy = Ok config /\
    (https config <> None <-> certificate proxy <> None).
Proof.
  intros proxy.
  assert (D : NonEmptyDomains proxy)
    by (exists "a.com"; split; [reflexivity | discriminate]).
  destruct (C4_https_block D eq_refl) as (config & G & I & _).
  exists config. split; assumption.
Defined.

Lemma string_append_nil_r (s : string) : s ++ "" = s.
Proof.
  induction s as [|c s IH]; cbn; [reflexivity | now rewrite IH].
Qed.

Lemma string_length_append (s t : string) :
  String.length (s ++ t) = (String.length s + String.length t)%nat.
Proof.
  induction s as [|c s IH]; cbn; [reflexivity | now rewrite IH].
Qed.

(** Where the rule of the redirect location sends a request: the scheme
    and the server name, then the path without its leading slash. *)
Lemma redirect_rule_target (server_name rest : string) :
  rewrite_target {| from := "^/(.*)"; to := "https://$server_name$1";
                    mode := Permanent |} server_name ("/" ++ rest)
  = Some ("https://" ++ server_name ++ rest).
Proof.
  cbn. now rewrite string_append_nil_r.
Qed.

Lemma not_https_equivalent (server_name rest : string) :
  "https://" ++ server_name ++ rest <>
  https_equivalent server_name ("/" ++ rest).
Proof.
  unfold https_equivalent. intros E.
  apply (f_equal String.length) in E.
  rewrite !string_length_append in E. cbn in E. lia.
Qed.

(** C5 (the code departs from the claim): with domains,
    [enableHttp = true] and [redirectHttps = true] the HTTP block has one
    location, with path [/], no forward target and a permanent rewrite from
    the pattern of the claim, whatever the pool; but the replacement
    [https://$server_name$1] leaves out the slash that the pattern takes off
    the path, so a request is not sent to its HTTPS equivalent on the same
    server name: [/foo/bar] on [a.com] goes to [https://a.comfoo/bar]. *)
Theorem C5_redirect_drops_the_slash (proxy : NginxProxy) :
  NonEmptyDomains proxy ->
  enableHttp proxy = Some true ->
  redirectHttps proxy = Some true ->
  exists config block l rule,
    genNginxConfig proxy = Ok config /\
    http config = Some block /\
    location block = Some [l] /\
    path l = "/" /\
    proxyPass l = None /\
    rewrite l = Some rule /\
    from rule = "^/(.*)" /\
    mode rule = Permanent /\
    forall server_name rest,
      rewrite_target rule server_name ("/" ++ rest) =
      Some ("https://" ++ server_name ++ rest) /\
      rewrite_target rule server_name ("/" ++ rest) <>
      Some (https_equivalent server_name ("/" ++ rest)).
Proof.
  intros D E R. apply truthy_domains in D.
  assert (T : forall server_name rest,
             rewrite_target {| from := "^/(.*)"; to := "https://$server_name$1";
                               mode := Permanent |} server_name ("/" ++ rest) =
             Some ("https://" ++ server_name ++ rest) /\
             rewrite_target {| from := "^/(.*)"; to := "https://$server_name$1";
                               mode := Permanent |} server_name ("/" ++ rest) <>
             Some (https_equivalent server_name ("/" ++ rest))).
  { intros server_name rest. rewrite redirect_rule_target.
    split; [reflexivity|]. intros H.
    apply (@not_https_equivalent server_name rest). congruence. }
  case_proxy proxy; cbn in D, E, R; try discriminate;
    (do 4 eexists; split; [reflexivity|]; cbn [http location];
     repeat (split; [reflexivity|]); exact T).
Qed.

Lemma C5_redirect_drops_the_slash_witness :
  let proxy :=
    sampleProxy (Some true) None (Some true) (Some sampleApplication) None in
  exists config block l rule,
    genNginxConfig proxy = Ok config /\
    http config = Some block /\
    location block = Some [l] /\
    rewrite l = Some rule /\
    rewrite_target rule "a.com" "/foo/bar" = Some "https://a.comfoo/bar" /\
    https_equivalent "a.com" "/foo/bar" = "https://a.com/foo/bar".
Proof.
  intros proxy.
  assert (D : NonEmptyDomains proxy)
    by (exists "a.com"; split; [reflexivity | discriminate]).
  destruct (C5_redirect_drops_the_slash D eq_refl eq_refl)
    as (config & block & l & rule & G & H & L & _ & _ & W & _ & _ & T).
  exists config, block, l, rule.
  repeat (split; [assumption|]).
  split; [exact (proj1 (T "a.com" "foo/bar")) | reflexivity].
Defined.

(** C6: with domains, [enableHttp = true] and [redirectHttps] not true, the
    HTTP block is there and named by the domains; with a pool it has one
    location, the proxy location (path [/], headers [X-Real-IP] and [Host],
    forward target [http://{poolName}]); without a pool it has none. *)
Theorem C6_http_proxy (proxy : NginxProxy) :
  NonEmptyDomains proxy ->
  enableHttp proxy = Some true ->
  redirectHttps proxy <> Some true ->
  exists config block,
    genNginxConfig proxy = Ok config /\
    http config = Some block /\
    serviceName block = domains proxy /\
    match upstream config with
    | Some pool =>
        exists l, location block = Some [l] /\ IsProxyLocation (name pool) l
    | None => location block = Some []
    end.
Proof.
  intros D E R. apply truthy_domains in D.
  case_proxy proxy; run_compiler; try discriminate; try (now elim R);
    (do 2 eexists; split; [reflexivity|]; cbn; repeat split;
     try (eexists; repeat split)).
Qed.

Lemma C6_http_proxy_witness :
  let proxy := sampleProxy (Some true) None (Some false) None None in
  exists config block,
    genNginxConfig proxy = Ok config /\
    http config = Some block /\
    serviceName block = Some "a.com" /\
    upstream config = None /\
    location block = Some [].
Proof.
  intros proxy.
  assert (D : NonEmptyDomains proxy)
    by (exists "a.com"; split; [reflexivity | discriminate]).
  assert (R : redirectHttps proxy <> Some true) by discriminate.
  destruct (C6_http_proxy D eq_refl R) as (config & block & G & H & S & L).
  injection G as <-. injection H as <-.
  eexists _, _. repeat split.
Defined.

(** C7: when neither [enableHttp] nor [enableHttps] is true, or there are
    no domains (absent or empty), the tree has no HTTP block and no HTTPS
    block; a pool may still be attached, as the witness shows. *)
Theorem C7_no_blocks (proxy : NginxProxy) :
  (enableHttp proxy <> Some true /\ enableHttps proxy <> Some true) \/
  NoDomains proxy ->
  exists config,
    genNginxConfig proxy = Ok config /\
    http config = None /\ https config = None.
Proof.
  intros [[H S] | N].
  - apply falsy_flag in H, S.
    case_proxy proxy; try discriminate H; try discriminate S;
      cbn; eexists; repeat split.
  - rewrite (genNginxConfig_no_domains N). eexists; repeat split.
Qed.

Lemma C7_no_blocks_witness :
  let proxy := sampleProxy (Some false) None None (Some sampleApplication) None in
  exists config,
    genNginxConfig proxy = Ok config /\
    http config = None /\ https config = None /\
    upstream config =
    Some {| name := "api_7"; servers := [ {| server_host := "10.0.0.1" |} ] |}.
Proof.
  intros proxy.
  assert (F : enableHttp proxy <> Some true /\ enableHttps proxy <> Some true)
    by (split; discriminate).
  destruct (C7_no_blocks (or_introl F)) as (config & G & H & S).
  exists config. repeat split; try assumption.
  injection G as <-. reflexivity.
Defined.

(** C8: the compiler returns a tree for every definition and raises
    nothing; the two builders that read through a reference succeed under
    the guard that the compiler calls them under (and raise without it). *)
Theorem C8_compiler_total (proxy : NginxProxy) :
  (exists config, genNginxConfig proxy = Ok config) /\
  (hasMechines proxy = true <-> exists pool, genNginxUpstream proxy = Ok pool) /\
  (truthy (certificate proxy) = true <->
   exists s, genNginxSSL proxy = Ok s).
Proof.
  split; [apply genNginxConfig_total|]. split.
  - unfold hasMechines, genNginxUpstream.
    destruct (application proxy) as [[k [ms|]]|]; cbn; split;
      try discriminate; eauto; intros [pool P]; discriminate.
  - unfold genNginxSSL.
    destruct (certificate proxy) as [cert|]; cbn; split;
      try discriminate; eauto; intros [s P]; discriminate.
Qed.

(* ===================================================================== *)
(** ** The operations on definitions *)
(* ===================================================================== *)

(** [validateId] holds of the positive numbers and of nothing else. *)
Lemma validateId_positive (v : JsValue) :
  validateId v = true <-> IsPositiveNumber v.
Proof.
  destruct v as [| |b|[| | |q]|s|l]; cbn; try (split; [discriminate | tauto]).
  - split; auto.
  - unfold Qgtb. rewrite negb_true_iff, <- not_true_iff_false, Qle_bool_iff.
    split; [apply Qnot_le_lt | apply Qlt_not_le].
Qed.

Lemma validateId_not_positive (v : JsValue) :
  validateId v = false <-> ~ IsPositiveNumber v.
Proof.
  rewrite <- validateId_positive. destruct (validateId v); split; congruence.
Qed.

(** One external call of the run in the goal: it answers or it fails. *)
Ltac step_call handle :=
  match goal with
  | |- context [handle ?X ?e ?w] =>
      let x := fresh "x" in
      let err := fresh "err" in
      let w' := fresh "w" in
      destruct (handle X e w) as [[x | err] w']; cbn
  | H : context [handle ?X ?e ?w] |- _ =>
      let x := fresh "x" in
      let err := fresh "err" in
      let w' := fresh "w" in
      destruct (handle X e w) as [[x | err] w']; cbn in H
  end.

Section RunFacts.

Variable World : Type.
Variable handle : forall X : Type, Event X -> World -> Result X * World.

(** Running a sequence: the first program, then the second one from
    where the first one stopped, unless the first one failed. *)
Lemma run_bind {A B : Type} (m : Prog A) (f : A -> Prog B) (w : World) :
  run handle (Prog_bind m f) w =
  match run handle m w with
  | (Ok a, w1, t1) =>
      let '(r, w2, t2) := run handle (f a) w1 in (r, w2, (t1 ++ t2)%list)
  | (Raise e, w1, t1) => (Raise e, w1, t1)
  end.
Proof.
  revert w. induction m as [a | e | X e k IH]; intros w; cbn.
  - destruct (run handle (f a) w) as [[r w2] t2]. reflexivity.
  - reflexivity.
  - destruct (handle e w) as [[x | err] w1]; [| reflexivity].
    rewrite IH.
    destruct (run handle (k x) w1) as [[[a | err] w2] t1]; [| reflexivity].
    destruct (run handle (f a) w2) as [[r w3] t2]. reflexivity.
Qed.

(** A program that awaits a call makes that call first. *)
Lemma run_Vis_first {A X : Type} (e : Event X) (k : X -> Prog A) (w : World) :
  exists answer rest,
    snd (run handle (Vis e k) w) = Accessed e answer :: rest.
Proof.
  cbn [run]. destruct (handle e w) as [[x | err] w1].
  - destruct (run handle (k x) w1) as [[r w2] t]. cbn. eauto.
  - cbn. eauto.
Qed.

(** Writing the configuration file saves and looks up nothing. *)
Lemma apply_quiet (proxy : NginxProxy) (w : World) :
  saves (snd (run handle (apply proxy) w)) = [] /\
  lookups (snd (run handle (apply proxy) w)) = [].
Proof.
  unfold apply. destruct (genNginxConfig_total proxy) as [config G].
  cbn. rewrite G. cbn. repeat step_call (@handle); split; reflexivity.
Qed.

End RunFacts.

(** C9: the guard is applied the wrong way round at its four call sites.
    For an id that is a positive number, [getInfo], [create], [update] and
    [remove] throw the 400 illegal-id error with no call made to the
    repository or the file system; for any other id (negative, zero, not a
    number) they pass the guard and go on to the repository. *)
Theorem C9_inverted_id_guard (World : Type)
  (handle : forall X : Type, Event X -> World -> Result X * World)
  (w : World) (i : JsValue) (options : Options) :
  o_id options = i ->
  (IsPositiveNumber i ->
   RejectedId w (run handle (getInfo i) w) /\
   RejectedId w (run handle (create options) w) /\
   RejectedId w (run handle (update i options) w) /\
   RejectedId w (run handle (remove i) w)) /\
  (~ IsPositiveNumber i ->
   StartsAtRepository (snd (run handle (getInfo i) w)) /\
   StartsAtRepository (snd (run handle (create options) w)) /\
   StartsAtRepository (snd (run handle (update i options) w)) /\
   StartsAtRepository (snd (run handle (remove i) w))).
Proof.
  intros O. unfold getInfo, create, update, remove. rewrite O. split; intros P.
  - apply validateId_positive in P. rewrite P. repeat split.
  - apply validateId_not_positive in P. rewrite P.
    unfold StartsAtRepository.
    repeat split; exact (run_Vis_first handle GetRepository _ w).
Qed.

Lemma C9_inverted_id_guard_witness :
  let options (i : JsValue) :=
    {| o_id := i; o_domains := Some "a.com"; o_enableHttp := Some true;
       o_enableHttps := None; o_application := None; o_certificate := None;
       o_sslCiphers := JsUndefined; o_sslPreferServerCiphers := JsUndefined;
       o_sslProtocols := JsUndefined; o_sslSessionCache := JsUndefined;
       o_sslSessionTimeout := JsUndefined; o_sslStapling := JsUndefined |} in
  let five := JsNumber (Finite 5) in
  let zero := JsNumber (Finite 0) in
  (IsPositiveNumber five /\
   RejectedId 0%nat (run (stub None) (getInfo five) 0%nat) /\
   RejectedId 0%nat (run (stub None) (create (options five)) 0%nat)) /\
  (~ IsPositiveNumber zero /\
   StartsAtRepository (snd (run (stub None) (remove zero) 0%nat))) /\
  (~ IsPositiveNumber (JsString "5") /\
   StartsAtRepository (snd (run (stub None) (getInfo (JsString "5")) 0%nat))).
Proof.
  intros options five zero.
  assert (P5 : IsPositiveNumber five) by reflexivity.
  assert (P0 : ~ IsPositiveNumber zero) by (intros H; discriminate H).
  assert (Ps : ~ IsPositiveNumber (JsString "5")) by (intros []).
  pose proof (C9_inverted_id_guard (stub None) 0%nat (options five) eq_refl)
    as [Rejected _].
  pose proof (C9_inverted_id_guard (stub None) 0%nat (options zero) eq_refl)
    as [_ Passed0].
  pose proof (C9_inverted_id_guard (stub None) 0%nat
                (options (JsString "5")) eq_refl)
    as [_ Passed].
  split; [| split].
  - split; [exact P5|].
    split; [exact (proj1 (Rejected P5)) | exact (proj1 (proj2 (Rejected P5)))].
  - split; [exact P0 | exact (proj2 (proj2 (proj2 (Passed0 P0))))].
  - split; [exact Ps | exact (proj1 (Passed Ps))].
Defined.

(** The entity that [update] saves, against the one it found. *)
Lemma update_assignments (options : Options) (stored : NginxProxy) :
  let nginxProxy := stored in
  let nginxProxy :=
    if truthy (o_domains options)
    then set_domains (o_domains options) nginxProxy else nginxProxy in
  let nginxProxy :=
    if truthy (o_enableHttp options)
    then set_enableHttp (o_enableHttp options) nginxProxy else nginxProxy in
  let nginxProxy :=
    if truthy (o_enableHttps options)
    then set_enableHttps (o_enableHttps options) nginxProxy else nginxProxy in
  let nginxProxy :=
    if truthy (o_application options)
    then set_application (o_application options) nginxProxy else nginxProxy in
  let nginxProxy :=
    if truthy (o_certificate options)
    then set_certificate (o_certificate options) nginxProxy else nginxProxy in
  UpdatedBy options stored nginxProxy.
Proof.
  cbv zeta. unfold UpdatedBy.
  destruct (truthy (o_domains options)), (truthy (o_enableHttp options)),
    (truthy (o_enableHttps options)), (truthy (o_application options)),
    (truthy (o_certificate options));
    repeat split.
Qed.

(** What is kept under [UpdatedBy]. *)
Lemma UpdatedBy_NothingCleared (options : Options) (stored entity : NginxProxy) :
  UpdatedBy options stored entity -> NothingCleared stored entity.
Proof.
  intros (D & H & S & A & C & _). unfold NothingCleared.
  repeat split.
  - intros E. rewrite H.
    destruct (truthy (o_enableHttp options)) eqn:T;
      [apply truthy_flag, T | exact E].
  - intros E. rewrite S.
    destruct (truthy (o_enableHttps options)) eqn:T;
      [apply truthy_flag, T | exact E].
  - intros E. apply truthy_domains. rewrite D.
    destruct (truthy (o_domains options)) eqn:T;
      [exact T | apply truthy_domains, E].
  - rewrite A. destruct (o_application options); cbn; congruence.
  - rewrite C. destruct (o_certificate options); cbn; congruence.
Qed.

(** C10: whatever the repository and the file system do, an entity that
    [update] hands to [save] is the definition found under the given id with
    [domains], [enableHttp], [enableHttps], [application] and [certificate]
    replaced by the option where the option is truthy, and every other
    property (the id, [redirectHttps], the six TLS properties) as found; so
    no flag goes from true to false, and no domains, application or
    certificate is lost. *)
Theorem C10_update_frame (World : Type)
  (handle : forall X : Type, Event X -> World -> Result X * World)
  (w : World) (i : JsValue) (options : Options) (entity : NginxProxy) :
  In entity (saves (snd (run handle (update i options) w))) ->
  exists stored,
    In (i, stored) (lookups (snd (run handle (update i options) w))) /\
    UpdatedBy options stored entity /\
    NothingCleared stored entity.
Proof.
  unfold update. destruct (validateId i); [intros []|].
  cbn [bind Monad_Prog Prog_bind trigger run].
  destruct (handle unit GetRepository w) as [[[] | err] w1]; [| intros []].
  cbn [bind Monad_Prog Prog_bind trigger run].
  destruct (handle _ (RepoFindOne i) w1) as [[[stored |] | err] w2];
    [| intros [] | intros []].
  pose proof (update_assignments options stored) as U. cbv zeta in U.
  cbn [bind Monad_Prog Prog_bind trigger run].
  match goal with
  | |- context [RepoSave ?e] => set (q := e) in *
  end.
  destruct (handle _ (RepoSave q) w2) as [[a | err] w3].
  - cbn [bind Monad_Prog Prog_bind trigger run].
    destruct (handle _ (ConsoleLog [LogString "a => "; LogProxy a]) w3)
      as [[[] | err] w4].
    + rewrite run_bind.
      destruct (apply_quiet handle a w4) as [QS QL].
      destruct (run handle (apply a) w4) as [[[[] | err] w5] t]; cbn in *.
      * rewrite app_nil_r. unfold saves, lookups in *.
        cbn. rewrite QS, QL. cbn.
        intros [<- | []]. exists stored.
        split; [now left|]. split; [exact U|].
        exact (UpdatedBy_NothingCleared U).
      * unfold saves, lookups in *. cbn. rewrite QS, QL. cbn.
        intros [<- | []]. exists stored.
        split; [now left|]. split; [exact U|].
        exact (UpdatedBy_NothingCleared U).
    + cbn. intros [<- | []]. exists stored.
      split; [now left|]. split; [exact U|].
      exact (UpdatedBy_NothingCleared U).
  - cbn. intros [<- | []]. exists stored.
    split; [now left|]. split; [exact U|].
    exact (UpdatedBy_NothingCleared U).
Qed.

Lemma C10_update_frame_witness :
  let stored :=
    sampleProxy (Some true) (Some true) None (Some sampleApplication)
      (Some sampleCertificate) in
  let options :=
    {| o_id := JsUndefined; o_domains := Some ""; o_enableHttp := Some false;
       o_enableHttps := None; o_application := None; o_certificate := None;
       o_sslCiphers := JsString "LOW"; o_sslPreferServerCiphers := JsNull;
       o_sslProtocols := JsNull; o_sslSessionCache := JsNull;
       o_sslSessionTimeout := JsNull; o_sslStapling := JsNull |} in
  let trace :=
    snd (run (stub (Some stored)) (update (JsNumber (Finite 0)) options)
           0%nat) in
  In stored (saves trace) /\
  exists found,
    In (JsNumber (Finite 0), found) (lookups trace) /\
    UpdatedBy options found stored /\
    NothingCleared found stored.
Proof.
  intros stored options trace.
  assert (S : In stored (saves trace)) by (left; reflexivity).
  split; [exact S|].
  exact (C10_update_frame (stub (Some stored)) 0%nat (JsNumber (Finite 0))
           options stored S).
Defined.

(* ===================================================================== *)
(** ** Further properties of the compiler *)
(* ===================================================================== *)

(** X1: which blocks a tree has.  The HTTP block is there exactly when the
    definition has domains and [enableHttp] is true; the HTTPS block exactly
    when it has domains, [enableHttps] is true and a certificate. *)
Theorem blocks_present_iff (proxy : NginxProxy) :
  exists config,
    genNginxConfig proxy = Ok config /\
    (http config <> None <->
     NonEmptyDomains proxy /\ enableHttp proxy = Some true) /\
    (https config <> None <->
     NonEmptyDomains proxy /\ enableHttps proxy = Some true /\
     certificate proxy <> None).
Proof.
  destruct (genNginxConfig_total proxy) as [config G]. exists config.
  split; [exact G|].
  rewrite <- truthy_domains, <- !truthy_flag.
  case_proxy proxy; cbn in *; injection G as <-; cbn;
    (split; split; intros H;
     solve [ now elim H
           | repeat split; congruence
           | decompose [and] H; congruence ]).
Qed.

(** X2: the shape of every block of every tree.  A block is named by the
    domains and has a list of at most one location; the HTTP block has no
    SSL object and the HTTPS block has one; the HTTPS block never
    redirects. *)
Theorem block_shape (proxy : NginxProxy) (config : NginxConfig) :
  genNginxConfig proxy = Ok config ->
  (forall block, In block (blocks config) ->
     serviceName block = domains proxy /\
     exists ls, location block = Some ls /\ (length ls <= 1)%nat) /\
  (forall block, http config = Some block -> ssl block = None) /\
  (forall block, https config = Some block ->
     ssl block <> None /\
     forall l, In l (locations block) -> rewrite l = None).
Proof.
  intros G. unfold blocks, locations.
  case_proxy proxy; cbn in *; injection G as <-; cbn;
    (split; [| split]).
  all: intros block B; cbn in B.
  all: repeat match goal with
         | H : _ \/ _ |- _ => destruct H as [H | H]
         | H : False |- _ => elim H
         | H : None = Some _ |- _ => discriminate H
         | H : Some _ = Some _ |- _ => injection H as H
         end.
  all: subst block; cbn.
  all: try reflexivity.
  all: try (split; [reflexivity | eexists; split; [reflexivity | cbn; lia]]).
  all: split; [discriminate |].
  all: intros loc L; repeat destruct L as [L | L]; try (now elim L).
  all: subst loc; reflexivity.
Qed.

Lemma block_shape_witness :
  let proxy :=
    sampleProxy (Some true) (Some true) (Some true) (Some sampleApplication)
      (Some sampleCertificate) in
  exists config,
    genNginxConfig proxy = Ok config /\
    length (blocks config) = 2%nat /\
    forall block, In block (blocks config) ->
      serviceName block = Some "a.com" /\
      exists ls, location block = Some ls /\ (length ls <= 1)%nat.
Proof.
  intros proxy.
  destruct (genNginxConfig_total proxy) as [config G].
  exists config. split; [exact G|]. split.
  - injection G as <-. reflexivity.
  - exact (proj1 (block_shape proxy G)).
Defined.

(** X3: no dangling forward.  A location of a tree that forwards does so
    to the pool of that same tree, and is the proxy location for it. *)
Theorem forward_targets_own_pool (proxy : NginxProxy) (config : NginxConfig)
  (block : NginxService) (l : NginxLocation) (target : string) :
  genNginxConfig proxy = Ok config ->
  In block (blocks config) ->
  In l (locations block) ->
  proxyPass l = Some target ->
  exists pool,
    upstream config = Some pool /\
    target = "http://" ++ name pool /\
    IsProxyLocation (name pool) l.
Proof.
  intros G B L T. unfold blocks, locations in *.
  case_proxy proxy; cbn in *; injection G as <-; cbn in *;
    repeat match goal with
      | H : _ \/ _ |- _ => destruct H as [H | H]
      | H : False |- _ => elim H
      end;
    subst; cbn in *;
    repeat match goal with
      | H : _ \/ _ |- _ => destruct H as [H | H]
      | H : False |- _ => elim H
      end;
    subst; cbn in *; try discriminate;
    injection T as <-; eexists; repeat split.
Qed.

Lemma forward_targets_own_pool_witness :
  let proxy :=
    sampleProxy (Some true) None None (Some sampleApplication) None in
  exists config pool,
    genNginxConfig proxy = Ok config /\
    upstream config = Some pool /\
    name pool = "api_7".
Proof.
  intros proxy.
  destruct (genNginxConfig_total proxy) as [config G].
  pose (block := {| serviceName := Some "a.com";
                    location := Some [genServiceLocation "api_7"];
                    ssl := None |}).
  assert (B : In block (blocks config))
    by (injection G as <-; left; reflexivity).
  assert (L : In (genServiceLocation "api_7") (locations block))
    by (left; reflexivity).
  destruct (forward_targets_own_pool proxy block (genServiceLocation "api_7")
              G B L eq_refl) as (pool & U & T & _).
  exists config, pool. repeat split; try assumption.
  injection G as <-. injection U as <-. reflexivity.
Defined.

(** X4: [redirectHttps] matters only with HTTP on: when [enableHttp] is not
    true the tree is the same for every value of [redirectHttps]. *)
Theorem redirect_ignored_without_http (proxy : NginxProxy) (v : option bool) :
  enableHttp proxy <> Some true ->
  genNginxConfig (with_redirectHttps v proxy) = genNginxConfig proxy.
Proof.
  intros H. apply falsy_flag in H.
  destruct proxy as [? d eh es rh app cert ? ? ? ? ? ?].
  unfold genNginxConfig, with_redirectHttps, hasMechines, genNginxUpstream,
    genNginxSSL. cbn in *. rewrite H. reflexivity.
Qed.

Lemma redirect_ignored_without_http_witness :
  let proxy :=
    sampleProxy None (Some true) None (Some sampleApplication)
      (Some sampleCertificate) in
  genNginxConfig (with_redirectHttps (Some true) proxy) = genNginxConfig proxy.
Proof.
  intros proxy.
  assert (H : enableHttp proxy <> Some true) by discriminate.
  exact (redirect_ignored_without_http proxy (Some true) H).
Defined.

(** X5: the redirect does not wait for an HTTPS block.  With domains,
    [enableHttp] and [redirectHttps] true, the HTTP block redirects to https
    also when [enableHttps] is not true or the certificate is missing, in
    which case the tree has no HTTPS block to receive the traffic. *)
Theorem redirect_without_https_block (proxy : NginxProxy) :
  NonEmptyDomains proxy ->
  enableHttp proxy = Some true ->
  redirectHttps proxy = Some true ->
  enableHttps proxy <> Some true \/ certificate proxy = None ->
  exists config block,
    genNginxConfig proxy = Ok config /\
    http config = Some block /\
    location block = Some [genRedirectHttpsLocation] /\
    https config = None.
Proof.
  intros D H R N. apply truthy_domains in D.
  case_proxy proxy; cbn in *; try discriminate;
    try (destruct N as [N | N]; [now elim N | discriminate N]);
    do 2 eexists; repeat split.
Qed.

Lemma redirect_without_https_block_witness :
  let proxy :=
    sampleProxy (Some true) (Some true) (Some true) (Some sampleApplication)
      None in
  exists config block,
    genNginxConfig proxy = Ok config /\
    http config = Some block /\
    location block = Some [genRedirectHttpsLocation] /\
    https config = None.
Proof.
  intros proxy.
  assert (D : NonEmptyDomains proxy)
    by (exists "a.com"; split; [reflexivity | discriminate]).
  exact (redirect_without_https_block D eq_refl eq_refl (or_intror eq_refl)).
Defined.

(** X6: the pool of an application is empty exactly when no target of the
    collection is enabled (an empty collection included), and it never has
    more servers than the collection has targets. *)
Theorem empty_pool_iff_none_enabled (proxy : NginxProxy) app ms pool :
  application proxy = Some app ->
  mechines app = Some ms ->
  genNginxUpstream proxy = Ok pool ->
  (servers pool = [] <-> forall m, In m ms -> disabled m = Some true) /\
  (length (servers pool) <= length ms)%nat.
Proof.
  intros A M G. rewrite (genNginxUpstream_ok proxy A M) in G.
  injection G as <-. cbn [servers]. clear A M. split.
  - induction ms as [|m ms IH]; cbn.
    + split; [intros _ m [] | reflexivity].
    + destruct (disabled m) as [[|]|] eqn:D; cbn.
      * rewrite IH. split.
        -- intros H m' [<- | I]; auto.
        -- intros H m' I. apply H. now right.
      * split; [discriminate|]. intros H.
        specialize (H m (or_introl eq_refl)). congruence.
      * split; [discriminate|]. intros H.
        specialize (H m (or_introl eq_refl)). congruence.
  - rewrite length_map. apply filter_length_le.
Qed.

Lemma empty_pool_iff_none_enabled_witness :
  let ms := [ {| host := "10.0.0.1"; disabled := Some true |};
              {| host := "10.0.0.2"; disabled := Some true |} ] in
  let app := {| key := "api"; mechines := Some ms |} in
  let proxy := sampleProxy (Some true) None None (Some app) None in
  genNginxUpstream proxy = Ok {| name := "api_7"; servers := [] |} /\
  (forall m, In m ms -> disabled m = Some true).
Proof.
  intros ms app proxy.
  assert (G : genNginxUpstream proxy = Ok {| name := "api_7"; servers := [] |})
    by reflexivity.
  split; [exact G|].
  exact (proj1 (proj1 (@empty_pool_iff_none_enabled proxy app ms _
                         eq_refl eq_refl G)) eq_refl).
Defined.

(** The decimal numeral of an integer: it can be read back, it is never
    [undefined], and it has no underscore. *)
Lemma to_int_proper (z : Z) :
  Z.to_int z <> Pos Nil /\ Z.to_int z <> Neg Nil.
Proof.
  destruct z as [|p|p]; cbn; split; try discriminate;
    intros [= E]; exact (DecimalPos.Unsigned.to_uint_nonnil p E).
Qed.

Lemma string_of_Z_read_back (z : Z) :
  option_map Z.of_int (NilZero.int_of_string (string_of_Z z)) = Some z.
Proof.
  unfold string_of_Z. destruct (to_int_proper z) as [P N].
  rewrite (NilZero.isi _ P N). cbn. now rewrite DecimalZ.of_to.
Qed.

Lemma string_of_Z_inj (a b : Z) : string_of_Z a = string_of_Z b -> a = b.
Proof.
  intros E. pose proof (string_of_Z_read_back a) as Ha.
  rewrite E, string_of_Z_read_back in Ha. now injection Ha.
Qed.

Lemma string_of_Z_defined (z : Z) : string_of_Z z <> "undefined".
Proof.
  intros E. pose proof (string_of_Z_read_back z) as H.
  rewrite E in H. discriminate H.
Qed.

Lemma template_of_id_inj (i j : option Z) :
  template_of_id i = template_of_id j -> i = j.
Proof.
  destruct i as [a|], j as [b|]; cbn; intros E.
  - f_equal. now apply string_of_Z_inj.
  - now apply string_of_Z_defined in E.
  - symmetry in E. now apply string_of_Z_defined in E.
  - reflexivity.
Qed.

Lemma string_of_uint_underscore_free (d : uint) :
  underscore_free (NilEmpty.string_of_uint d).
Proof.
  induction d; cbn; auto; split; auto; discriminate.
Qed.

Lemma template_of_id_underscore_free (i : option Z) :
  underscore_free (template_of_id i).
Proof.
  destruct i as [z|]; [| cbn; repeat split; discriminate].
  unfold template_of_id, string_of_Z, NilZero.string_of_int,
    NilZero.string_of_uint.
  destruct (Z.to_int z) as [d | d]; [| split; [discriminate|]];
    (destruct d; [cbn; repeat split; discriminate
                 | apply string_of_uint_underscore_free ..]).
Qed.

(** The last underscore of a pool name separates the key from the id. *)
Lemma split_at_last_underscore (k1 k2 s1 s2 : string) :
  underscore_free s1 -> underscore_free s2 ->
  k1 ++ "_" ++ s1 = k2 ++ "_" ++ s2 -> k1 = k2 /\ s1 = s2.
Proof.
  intros F1 F2. revert k2.
  assert (B : forall k s, underscore_free (k ++ "_" ++ s) -> False).
  { induction k as [|c k IH]; cbn; intros s [H1 H2];
      [now elim H1 | exact (IH _ H2)]. }
  induction k1 as [|c1 k1 IH]; intros [|c2 k2]; cbn; intros E.
  - injection E as ->. split; reflexivity.
  - injection E as <- ->. elim (B _ _ F1).
  - injection E as -> <-. elim (B _ _ F2).
  - injection E as <- E. destruct (IH _ E) as [-> ->]. split; reflexivity.
Qed.

(** X7: one file per id.  Two definitions get the same configuration path
    exactly when they have the same id (a missing id counting as an id of
    its own, printed [undefined]). *)
Theorem config_path_per_id (p q : NginxProxy) :
  getNginxConfigPath p = getNginxConfigPath q <-> id p = id q.
Proof.
  unfold getNginxConfigPath. split.
  - intros [= E]. now apply template_of_id_inj.
  - intros ->. reflexivity.
Qed.

(** X8: pool names do not clash.  Two pools have the same name only when
    they were built for applications with the same key and for definitions
    with the same id. *)
Theorem pool_name_unique (p q : NginxProxy) (u v : NginxUpstreamConfig) :
  genNginxUpstream p = Ok u ->
  genNginxUpstream q = Ok v ->
  name u = name v ->
  id p = id q /\
  exists a b,
    application p = Some a /\ application q = Some b /\ key a = key b.
Proof.
  unfold genNginxUpstream. intros U V E.
  destruct (application p) as [[ka [ma|]]|]; cbn in U; try discriminate U.
  destruct (application q) as [[kb [mb|]]|]; cbn in V; try discriminate V.
  injection U as <-. injection V as <-. cbn in E.
  apply (split_at_last_underscore ka kb _ _
           (template_of_id_underscore_free (id p))
           (template_of_id_underscore_free (id q))) in E.
  destruct E as [-> E]. split; [now apply template_of_id_inj|].
  eexists _, _. repeat split.
Qed.

Lemma pool_name_unique_witness :
  let p := sampleProxy (Some true) None None (Some sampleApplication) None in
  let q :=
    sampleProxy None (Some true) None
      (Some {| key := "api"; mechines := Some [] |}) (Some sampleCertificate) in
  id p = id q /\
  exists a b,
    application p = Some a /\ application q = Some b /\ key a = key b.
Proof.
  intros p q.
  exact (@pool_name_unique p q
           {| name := "api_7"; servers := [ {| server_host := "10.0.0.1" |} ] |}
           {| name := "api_7"; servers := [] |}
           eq_refl eq_refl eq_refl).
Defined.

(* ===================================================================== *)
(** ** Further properties of the operations *)
(* ===================================================================== *)

Lemma always_bind {A B : Type} (P : forall X : Type, Event X -> Prop)
  (m : Prog A) (f : A -> Prog B) :
  always P m -> (forall a, always P (f a)) -> always P (Prog_bind m f).
Proof.
  intros M F. induction m as [a | e | X e k IH]; cbn in *; auto.
  destruct M as [Pe Pk]. split; auto.
Qed.

Lemma always_lift {A : Type} (P : forall X : Type, Event X -> Prop)
  (r : Result A) : always P (lift r).
Proof.
  destruct r; exact I.
Qed.

(** What holds of every call a program can make holds of the calls of each
    of its runs. *)
Lemma run_always {A World : Type}
  (handle : forall X : Type, Event X -> World -> Result X * World)
  (P : forall X : Type, Event X -> Prop) (p : Prog A) (w : World) :
  always P p -> Forall (call_satisfies P) (calls (run handle p w)).
Proof.
  unfold calls. revert w.
  induction p as [a | e | X e k IH]; intros w H; cbn; auto.
  destruct H as [Pe Pk].
  destruct (handle X e w) as [[x | err] w1]; cbn.
  - specialize (IH x w1 (Pk x)).
    destruct (run handle (k x) w1) as [[r w2] t]. cbn in *.
    constructor; assumption.
  - constructor; [assumption | constructor].
Qed.

(** The file name of a definition is a plain one: the digits of its id,
    with a sign, or [undefined]. *)
Lemma string_of_uint_plain (d : uint) :
  plain_chars (NilEmpty.string_of_uint d).
Proof.
  induction d; cbn; auto; repeat split; auto; discriminate.
Qed.

Lemma template_of_id_plain (i : option Z) : PlainFileName (template_of_id i).
Proof.
  destruct i as [z|]; [| split; [discriminate | cbn; repeat split; discriminate]].
  unfold template_of_id, string_of_Z, NilZero.string_of_int,
    NilZero.string_of_uint.
  destruct (Z.to_int z) as [d | d]; destruct d; split; try discriminate;
    try (cbn; repeat split; discriminate);
    try (repeat split; try discriminate; apply string_of_uint_plain);
    try (apply (string_of_uint_plain (D0 _)) || apply string_of_uint_plain).
Qed.

Lemma getNginxConfigPath_InConfDir (proxy : NginxProxy) :
  InConfDir (getNginxConfigPath proxy).
Proof.
  right. exists (template_of_id (id proxy)).
  split; [reflexivity | apply template_of_id_plain].
Qed.

(** A program keeps a property of its calls when each call it is built from
    has it. *)
Ltac prove_always :=
  cbn;
  repeat match goal with
    | |- _ /\ _ => split
    | |- forall _, _ => intro
    | |- True => exact I
    | |- always _ (Prog_bind _ _) => apply always_bind
    | |- always _ (lift _) => apply always_lift
    | |- always _ (match ?x with _ => _ end) => destruct x; cbn
    | |- InConfDir NGINX_CONF_DIR => left; reflexivity
    | |- InConfDir (getNginxConfigPath _) => apply getNginxConfigPath_InConfDir
    | |- always _ _ => progress cbn
    end.

(** X9: the operations keep to the configuration directory.  Whatever the
    collaborators answer, every file-system call of [apply], [create],
    [update] and [remove] is on [NGINX_CONF_DIR] or on a file directly in
    it (the directory joined with a plain file name: not empty, no path
    separator, no dot), and [getList] and [getInfo] make no file-system call
    at all. *)
Theorem operations_stay_in_conf_dir (World : Type)
  (handle : forall X : Type, Event X -> World -> Result X * World)
  (w : World) (i : JsValue) (options : Options) (proxy : NginxProxy) :
  Forall (call_satisfies StaysInConfDir) (calls (run handle (apply proxy) w)) /\
  Forall (call_satisfies StaysInConfDir)
    (calls (run handle (create options) w)) /\
  Forall (call_satisfies StaysInConfDir)
    (calls (run handle (update i options) w)) /\
  Forall (call_satisfies StaysInConfDir) (calls (run handle (remove i) w)) /\
  Forall (call_satisfies ReadsRepository) (calls (run handle getList w)) /\
  Forall (call_satisfies ReadsRepository) (calls (run handle (getInfo i) w)).
Proof.
  unfold getList, getInfo, create, update, remove, apply.
  repeat split; apply run_always; prove_always.
Qed.

(** The next thing a run in the goal waits for: the answer of a call, the
    tree of the compiler (which it always gets), or what a call answered. *)
Ltac step handle :=
  first
    [ step_call handle
    | match goal with
      | |- context [lift (genNginxConfig ?p)] =>
          let config := fresh "config" in
          let G := fresh "G" in
          destruct (genNginxConfig_total p) as [config G];
          rewrite G; cbn
      | |- context [match ?x with Some _ => _ | None => _ end] =>
          is_var x; destruct x; cbn
      | |- context [if ?x then _ else _] => is_var x; destruct x; cbn
      | x : unit |- _ => destruct x
      end ].

(** X10: what [apply] does.  It makes no repository call; it writes at most
    one file, the one named by the id of the definition, with the rendering
    of the compiled tree, and only after [ensureDir] on the configuration
    directory succeeded; it fails only with the failure of a collaborator,
    and when it succeeds the file was written. *)
Theorem apply_writes_compiled_config (World : Type)
  (handle : forall X : Type, Event X -> World -> Result X * World)
  (w : World) (proxy : NginxProxy) :
  Forall (call_satisfies LeavesRepository) (calls (run handle (apply proxy) w)) /\
  exists config,
    genNginxConfig proxy = Ok config /\
    (writes (calls (run handle (apply proxy) w)) = [] \/
     writes (calls (run handle (apply proxy) w)) =
     [(join NGINX_CONF_DIR (template_of_id (id proxy)), stringify config)]) /\
    (writes (calls (run handle (apply proxy) w)) <> [] ->
     In (Accessed (FsEnsureDir NGINX_CONF_DIR) (Ok tt))
       (calls (run handle (apply proxy) w))) /\
    (outcome (run handle (apply proxy) w) = Ok tt ->
     writes (calls (run handle (apply proxy) w)) =
     [(join NGINX_CONF_DIR (template_of_id (id proxy)), stringify config)]) /\
    (forall e, outcome (run handle (apply proxy) w) = Raise e ->
               In e (failures (calls (run handle (apply proxy) w)))).
Proof.
  split.
  - apply run_always. unfold apply. prove_always.
  - unfold apply, getNginxConfigPath, outcome, calls, writes, failures.
    destruct (genNginxConfig_total proxy) as [config G].
    exists config. split; [exact G|].
    cbn. rewrite G. cbn.
    repeat step handle;
      (split; [auto | split; [intros N; try (now elim N); cbn; auto
                             | split; [intros [=]; reflexivity
                                      | intros e [= <-]; cbn; auto]]]).
Qed.

(** Routine ends of the cases of a run. *)
Ltac case_done :=
  cbn in *; intros;
  repeat match goal with
    | H : False |- _ => elim H
    | H : _ /\ _ |- _ => destruct H
    | H : _ \/ _ |- _ => destruct H
    | H : Ok _ = Raise _ |- _ => discriminate H
    | H : Raise _ = Ok _ |- _ => discriminate H
    | H : [] = _ :: _ |- _ => discriminate H
    | H : _ :: _ = [] |- _ => discriminate H
    | H : Ok _ = Ok _ |- _ => injection H as H
    | H : Raise _ = Raise _ |- _ => injection H as H
    | H : _ :: _ = _ :: _ |- _ => injection H as H
    | H : (_, _) = (_, _) |- _ => injection H as H
    | H : Accessed _ _ = Accessed _ _ |- _ =>
        first [ discriminate (f_equal call_kind H)
              | discriminate (f_equal answer_of H)
              | apply (f_equal answer_of) in H; cbn in H ]
    | H : Done = Done |- _ => clear H
    | H : Failed _ = Failed _ |- _ => injection H as H
    | H : Listed _ = Listed _ |- _ => injection H as H
    | H : Found _ = Found _ |- _ => injection H as H
    | H : Stored _ = Stored _ |- _ => injection H as H
    | H : Existed _ = Existed _ |- _ => injection H as H
    | H : Some _ = Some _ |- _ => injection H as H
    | H : ?a = ?a |- _ => clear H
    | H : ?x = _ |- _ => is_var x; subst x
    | H : _ = ?x |- _ => is_var x; subst x
    end.

(** X11: what [getInfo] answers.  It returns a definition exactly when the
    lookup under the given id found that definition; a lookup that found
    nothing gives the 404 error; and an error is the 400 of the guard (no
    call made), the 404 of an empty lookup, or the failure of a
    collaborator. *)
Theorem getInfo_outcome (World : Type)
  (handle : forall X : Type, Event X -> World -> Result X * World)
  (w : World) (i : JsValue) :
  (forall p,
     outcome (run handle (getInfo i) w) = Ok p <->
     lookups (calls (run handle (getInfo i) w)) = [(i, p)]) /\
  (In (Accessed (RepoFindOne i) (Ok None)) (calls (run handle (getInfo i) w)) ->
   outcome (run handle (getInfo i) w) = Raise (ServerError 404 noNginxProxy)) /\
  (forall e,
     outcome (run handle (getInfo i) w) = Raise e ->
     (e = ServerError 400 illegalId /\ IsPositiveNumber i /\
      calls (run handle (getInfo i) w) = []) \/
     (e = ServerError 404 noNginxProxy /\
      In (Accessed (RepoFindOne i) (Ok None))
        (calls (run handle (getInfo i) w))) \/
     In e (failures (calls (run handle (getInfo i) w)))).
Proof.
  unfold getInfo, outcome, calls, lookups, failures.
  destruct (validateId i) eqn:V.
  - apply validateId_positive in V. cbn. repeat split; case_done; auto.
  - cbn. repeat step handle.
    all: repeat split; case_done; auto 6.
Qed.

(** X12: [remove] on a missing definition.  When the lookup finds nothing,
    [remove] fails with the 404 error, deletes nothing and removes no file;
    in general its error is the 400 of the guard (no call made), that 404,
    or the failure of a collaborator. *)
Theorem remove_missing (World : Type)
  (handle : forall X : Type, Event X -> World -> Result X * World)
  (w : World) (i : JsValue) :
  (In (Accessed (RepoFindOne i) (Ok None)) (calls (run handle (remove i) w)) ->
   outcome (run handle (remove i) w) = Raise (ServerError 404 noNginxProxy) /\
   deletions (calls (run handle (remove i) w)) = [] /\
   removals (calls (run handle (remove i) w)) = []) /\
  (forall e,
     outcome (run handle (remove i) w) = Raise e ->
     (e = ServerError 400 illegalId /\ IsPositiveNumber i /\
      calls (run handle (remove i) w) = []) \/
     (e = ServerError 404 noNginxProxy /\
      In (Accessed (RepoFindOne i) (Ok None))
        (calls (run handle (remove i) w))) \/
     In e (failures (calls (run handle (remove i) w)))).
Proof.
  unfold remove, outcome, calls, deletions, removals, failures.
  destruct (validateId i) eqn:V.
  - apply validateId_positive in V. cbn. repeat split; case_done; auto.
  - cbn. repeat step handle.
    all: repeat split; case_done; auto 8.
Qed.

(** X13: [remove] on a definition that is there.  It deletes at most the
    id it was given, and only after the lookup under that id found a
    definition; it removes at most one file, the configuration file of the
    definition it found, and only after the delete succeeded and
    [pathExists] answered true for that file; when [pathExists] answers
    false it succeeds without removing anything. *)
Theorem remove_found (World : Type)
  (handle : forall X : Type, Event X -> World -> Result X * World)
  (w : World) (i : JsValue) :
  (deletions (calls (run handle (remove i) w)) = [] \/
   deletions (calls (run handle (remove i) w)) = [i] /\
   exists stored, lookups (calls (run handle (remove i) w)) = [(i, stored)]) /\
  (removals (calls (run handle (remove i) w)) = [] \/
   exists stored,
     lookups (calls (run handle (remove i) w)) = [(i, stored)] /\
     removals (calls (run handle (remove i) w)) = [getNginxConfigPath stored] /\
     In (Accessed (RepoDelete i) (Ok tt)) (calls (run handle (remove i) w)) /\
     In (Accessed (FsPathExists (getNginxConfigPath stored)) (Ok true))
       (calls (run handle (remove i) w))) /\
  (forall file,
     In (Accessed (FsPathExists file) (Ok false))
       (calls (run handle (remove i) w)) ->
     outcome (run handle (remove i) w) = Ok tt /\
     removals (calls (run handle (remove i) w)) = []).
Proof.
  unfold remove, outcome, calls, deletions, removals, lookups.
  destruct (validateId i) eqn:V.
  - cbn. repeat split; case_done; auto.
  - cbn. repeat step handle.
    all: split; [| split];
      try (now left);
      try (right; eexists; cbn; repeat split; auto 8; fail);
      try (right; split; [reflexivity | eexists; reflexivity]);
      case_done; auto.
Qed.

(** X14: what [create] saves.  It saves at most one entity, built from the
    options alone: the eleven assigned properties are the options, and the
    entity has no id (the id of the options is checked but not stored) and
    no [redirectHttps]. *)
Theorem create_saves_fresh_entity (World : Type)
  (handle : forall X : Type, Event X -> World -> Result X * World)
  (w : World) (options : Options) :
  (length (saves (calls (run handle (create options) w))) <= 1)%nat /\
  forall entity,
    In entity (saves (calls (run handle (create options) w))) ->
    entity =
    {| id := None;
       domains := o_domains options;
       enableHttp := o_enableHttp options;
       enableHttps := o_enableHttps options;
       redirectHttps := None;
       application := o_application options;
       certificate := o_certificate options;
       sslCiphers := o_sslCiphers options;
       sslPreferServerCiphers := o_sslPreferServerCiphers options;
       sslProtocols := o_sslProtocols options;
       sslSessionCache := o_sslSessionCache options;
       sslSessionTimeout := o_sslSessionTimeout options;
       sslStapling := o_sslStapling options |}.
Proof.
  unfold create, apply, getNginxConfigPath, calls, saves.
  destruct (validateId (o_id options)).
  - cbn. split; [lia | intros entity []].
  - cbn. repeat step handle.
    all: split; [cbn; lia | intros entity H; case_done; reflexivity].
Qed.

(** X15: the file [create] writes is the one of the saved definition.  A
    file is written only after [save] answered, it is the file named by
    the id of the entity as [save] left it, and its text is the rendering of
    the tree compiled from that entity; when [create] returns a definition,
    that definition is the answer of [save] and its file was written. *)
Theorem create_file_follows_save (World : Type)
  (handle : forall X : Type, Event X -> World -> Result X * World)
  (w : World) (options : Options) :
  (forall file data,
     In (file, data) (writes (calls (run handle (create options) w))) ->
     exists after config,
       save_answers (calls (run handle (create options) w)) = [after] /\
       file = getNginxConfigPath after /\
       genNginxConfig after = Ok config /\
       data = stringify config) /\
  (forall p,
     outcome (run handle (create options) w) = Ok p ->
     save_answers (calls (run handle (create options) w)) = [p] /\
     exists config,
       genNginxConfig p = Ok config /\
       writes (calls (run handle (create options) w)) =
       [(getNginxConfigPath p, stringify config)]).
Proof.
  unfold create, apply, outcome, calls, writes, save_answers.
  destruct (validateId (o_id options)) eqn:V.
  - cbn. repeat split; case_done; auto.
  - cbn. repeat step handle.
    all: split; intros; case_done;
      try (eexists _, _; repeat split; eassumption);
      try (split; [reflexivity | eexists; split; [eassumption | reflexivity]]).
Qed.

(** A run of [update] saves nothing, or it found one definition and saves
    one entity, the found one updated by the options. *)
Lemma update_run_shape (World : Type)
  (handle : forall X : Type, Event X -> World -> Result X * World)
  (w : World) (i : JsValue) (options : Options) :
  saves (calls (run handle (update i options) w)) = [] \/
  exists stored entity,
    lookups (calls (run handle (update i options) w)) = [(i, stored)] /\
    saves (calls (run handle (update i options) w)) = [entity] /\
    UpdatedBy options stored entity.
Proof.
  unfold update, apply, calls, saves, lookups.
  destruct (validateId i); [now left|].
  cbn. repeat step handle.
  all: try (now left).
  all: right; eexists _, _; split; [reflexivity | split; [reflexivity|]].
  all: exact (update_assignments options _).
Qed.

Lemma UpdatedBy_again (options : Options) (stored first second : NginxProxy) :
  UpdatedBy options stored first -> UpdatedBy options first second ->
  second = first.
Proof.
  unfold UpdatedBy. intros F S.
  destruct first, second; cbn in *.
  decompose [and] F; clear F. decompose [and] S; clear S. subst.
  destruct (truthy (o_domains options)), (truthy (o_enableHttp options)),
    (truthy (o_enableHttps options)), (truthy (o_application options)),
    (truthy (o_certificate options)); reflexivity.
Qed.

(** X16: [update] on a missing definition.  When the lookup finds nothing,
    [update] fails with the 404 error, saves nothing and writes no file. *)
Theorem update_missing (World : Type)
  (handle : forall X : Type, Event X -> World -> Result X * World)
  (w : World) (i : JsValue) (options : Options) :
  In (Accessed (RepoFindOne i) (Ok None))
    (calls (run handle (update i options) w)) ->
  outcome (run handle (update i options) w) =
  Raise (ServerError 404 noNginxProxy) /\
  saves (calls (run handle (update i options) w)) = [] /\
  writes (calls (run handle (update i options) w)) = [].
Proof.
  unfold update, apply, outcome, calls, saves, writes.
  destruct (validateId i) eqn:V.
  - cbn. intros [].
  - cbn. repeat step handle.
    all: intros; case_done; auto.
Qed.

(** X17: the file [update] writes is the one of the saved definition.  A
    file is written only after [save] answered, it is named by the id of
    the entity as [save] left it, and its text is the rendering of the tree
    compiled from that entity; when [update] returns a definition, that
    definition is the answer of [save] and its file was written. *)
Theorem update_file_follows_save (World : Type)
  (handle : forall X : Type, Event X -> World -> Result X * World)
  (w : World) (i : JsValue) (options : Options) :
  (forall file data,
     In (file, data) (writes (calls (run handle (update i options) w))) ->
     exists after config,
       save_answers (calls (run handle (update i options) w)) = [after] /\
       file = getNginxConfigPath after /\
       genNginxConfig after = Ok config /\
       data = stringify config) /\
  (forall p,
     outcome (run handle (update i options) w) = Ok p ->
     save_answers (calls (run handle (update i options) w)) = [p] /\
     exists config,
       genNginxConfig p = Ok config /\
       writes (calls (run handle (update i options) w)) =
       [(getNginxConfigPath p, stringify config)]).
Proof.
  unfold update, apply, outcome, calls, writes, save_answers.
  destruct (validateId i) eqn:V.
  - cbn. repeat split; case_done; auto.
  - cbn. repeat step handle.
    all: split; intros; case_done;
      try (eexists _, _; repeat split; eassumption);
      try (split; [reflexivity | eexists; split; [eassumption | reflexivity]]).
Qed.

(** X18: [update] is idempotent on what it saves.  When an update with the
    same options finds the entity that an earlier update saved, it saves
    that entity unchanged. *)
Theorem update_idempotent (World1 World2 : Type)
  (handle1 : forall X : Type, Event X -> World1 -> Result X * World1)
  (handle2 : forall X : Type, Event X -> World2 -> Result X * World2)
  (w1 : World1) (w2 : World2) (i j : JsValue) (options : Options)
  (first second : NginxProxy) :
  In first (saves (calls (run handle1 (update i options) w1))) ->
  In (j, first) (lookups (calls (run handle2 (update j options) w2))) ->
  In second (saves (calls (run handle2 (update j options) w2))) ->
  second = first.
Proof.
  intros F L S.
  destruct (update_run_shape handle1 w1 i options)
    as [E | (s1 & e1 & _ & E1 & U1)]; [rewrite E in F; elim F|].
  destruct (update_run_shape handle2 w2 j options)
    as [E | (s2 & e2 & L2 & E2 & U2)]; [rewrite E in S; elim S|].
  rewrite E1 in F. rewrite L2 in L. rewrite E2 in S.
  destruct F as [<- | []]. destruct S as [<- | []].
  destruct L as [[= <-] | []].
  exact (UpdatedBy_again U1 U2).
Qed.

(** X20: what [getList] answers.  It returns the rows that [find]
    answered with, and nothing else; it fails only with the failure of a
    collaborator. *)
Theorem getList_outcome (World : Type)
  (handle : forall X : Type, Event X -> World -> Result X * World)
  (w : World) :
  (forall rows,
     outcome (run handle getList w) = Ok rows <->
     In (Accessed RepoFind (Ok rows)) (calls (run handle getList w))) /\
  (forall e,
     outcome (run handle getList w) = Raise e ->
     In e (failures (calls (run handle getList w)))).
Proof.
  unfold getList, outcome, calls, failures. cbn.
  repeat step handle.
  all: split; [intros rows; split; intros H | intros e H]; case_done; auto.
Qed.

(* ===================================================================== *)
(** ** Runs against the test doubles *)
(* ===================================================================== *)

Lemma apply_writes_compiled_config_witness :
  let proxy := sampleProxy (Some true) None None None None in
  exists config,
    genNginxConfig proxy = Ok config /\
    writes (calls (run (stub None) (apply proxy) 0%nat)) =
    [(join NGINX_CONF_DIR "7", stringify config)].
Proof.
  intros proxy.
  destruct (apply_writes_compiled_config (stub None) 0%nat proxy)
    as (_ & config & G & _ & _ & W & _).
  exists config. split; [exact G | exact (W eq_refl)].
Defined.

Lemma getInfo_outcome_witness :
  outcome (run (stub None) (getInfo JsNull) 0%nat) =
  Raise (ServerError 404 noNginxProxy).
Proof.
  refine (proj1 (proj2 (getInfo_outcome (stub None) 0%nat JsNull)) _).
  right; left; reflexivity.
Defined.

Lemma remove_missing_witness :
  outcome (run (stub None) (remove JsNull) 0%nat) =
  Raise (ServerError 404 noNginxProxy) /\
  deletions (calls (run (stub None) (remove JsNull) 0%nat)) = [] /\
  removals (calls (run (stub None) (remove JsNull) 0%nat)) = [].
Proof.
  refine (proj1 (remove_missing (stub None) 0%nat JsNull) _).
  right; left; reflexivity.
Defined.

Lemma remove_found_witness :
  let stored := sampleProxy (Some true) None None None None in
  (outcome (run (stub (Some stored)) (remove JsNull) 0%nat) = Ok tt /\
   removals (calls (run (stub (Some stored)) (remove JsNull) 0%nat)) = []) /\
  removals (calls (run (stubOnDisk (Some stored)) (remove JsNull) 0%nat)) =
  [join NGINX_CONF_DIR "7"].
Proof.
  intros stored. split.
  - refine (proj2 (proj2 (remove_found (stub (Some stored)) 0%nat JsNull))
              (join NGINX_CONF_DIR "7") _).
    do 3 right; left; reflexivity.
  - destruct (proj1 (proj2 (remove_found (stubOnDisk (Some stored)) 0%nat
                              JsNull)))
      as [E | (found & L & R & _)]; [discriminate E|].
    injection L as <-. exact R.
Defined.

Lemma create_saves_fresh_entity_witness :
  exists entity,
    In entity
      (saves (calls (run (stub None) (create negativeIdOptions) 0%nat))) /\
    id entity = None /\ redirectHttps entity = None /\
    domains entity = Some "a.com".
Proof.
  assert (S : exists entity,
             In entity
               (saves (calls (run (stub None) (create negativeIdOptions)
                                0%nat))))
    by (eexists; vm_compute; left; reflexivity).
  destruct S as [entity S]. exists entity. split; [exact S|].
  destruct (create_saves_fresh_entity (stub None) 0%nat negativeIdOptions)
    as [_ P].
  rewrite (P entity S). repeat split.
Defined.

Lemma create_file_follows_save_witness :
  exists p config,
    outcome (run (stub None) (create httpsOptions) 0%nat) = Ok p /\
    genNginxConfig p = Ok config /\
    writes (calls (run (stub None) (create httpsOptions) 0%nat)) =
    [(getNginxConfigPath p, stringify config)].
Proof.
  assert (O : exists p,
             outcome (run (stub None) (create httpsOptions) 0%nat) = Ok p)
    by (eexists; vm_compute; reflexivity).
  destruct O as [p O]. exists p.
  destruct (proj2 (create_file_follows_save (stub None) 0%nat httpsOptions)
              p O)
    as (_ & config & G & W).
  exists config. split; [exact O | split; [exact G | exact W]].
Defined.

Lemma update_missing_witness :
  outcome (run (stub None) (update JsNull httpsOptions) 0%nat) =
  Raise (ServerError 404 noNginxProxy) /\
  saves (calls (run (stub None) (update JsNull httpsOptions) 0%nat)) = [] /\
  writes (calls (run (stub None) (update JsNull httpsOptions) 0%nat)) = [].
Proof.
  refine (update_missing (stub None) 0%nat JsNull httpsOptions _).
  right; left; reflexivity.
Defined.

Lemma update_file_follows_save_witness :
  let stored := sampleProxy (Some true) None None None None in
  exists p config,
    outcome (run (stub (Some stored)) (update JsNull httpsOptions) 0%nat) =
    Ok p /\
    genNginxConfig p = Ok config /\
    writes (calls (run (stub (Some stored)) (update JsNull httpsOptions)
                     0%nat)) =
    [(getNginxConfigPath p, stringify config)].
Proof.
  intros stored.
  assert (O : exists p,
             outcome (run (stub (Some stored)) (update JsNull httpsOptions)
                        0%nat) = Ok p)
    by (eexists; vm_compute; reflexivity).
  destruct O as [p O]. exists p.
  destruct (proj2 (update_file_follows_save (stub (Some stored)) 0%nat JsNull
                     httpsOptions) p O)
    as (_ & config & G & W).
  exists config. split; [exact O | split; [exact G | exact W]].
Defined.

Lemma update_idempotent_witness :
  let stored := sampleProxy (Some true) None None None None in
  let first :=
    set_domains (Some "b.com")
      (sampleProxy (Some true) (Some true) None None (Some sampleCertificate)) in
  In first
    (saves (calls (run (stub (Some stored)) (update JsUndefined httpsOptions)
                     0%nat))) /\
  In first
    (saves (calls (run (stub (Some first)) (update JsNull httpsOptions)
                     0%nat))).
Proof.
  intros stored first.
  assert (F : In first
                (saves (calls (run (stub (Some stored))
                                 (update JsUndefined httpsOptions) 0%nat))))
    by (vm_compute; left; reflexivity).
  assert (L : In (JsNull, first)
                (lookups (calls (run (stub (Some first))
                                   (update JsNull httpsOptions) 0%nat))))
    by (vm_compute; left; reflexivity).
  assert (S : exists second,
             In second
               (saves (calls (run (stub (Some first))
                                (update JsNull httpsOptions) 0%nat))))
    by (eexists; vm_compute; left; reflexivity).
  destruct S as [second S].
  split; [exact F|].
  pose proof (@update_idempotent nat nat (stub (Some stored))
                (stub (Some first)) 0%nat 0%nat JsUndefined JsNull
                httpsOptions first second F L S) as E.
  rewrite E in S. exact S.
Defined.

Lemma pool_gate_is_presence_witness :
  let proxy :=
    sampleProxy (Some true) None None
      (Some {| key := "api"; mechines := None |}) None in
  exists config, genNginxConfig proxy = Ok config /\ upstream config = None.
Proof.
  intros proxy.
  assert (D : NonEmptyDomains proxy)
    by (exists "a.com"; split; [reflexivity | discriminate]).
  destruct (pool_gate_is_presence D) as (config & G & I).
  exists config. split; [exact G|].
  destruct (upstream config) as [pool|]; [| reflexivity].
  assert (N : Some pool <> None) by discriminate.
  destruct (proj1 I N) as (app & ms & A & M).
  injection A as <-. discriminate M.
Defined.

Lemma getList_outcome_witness :
  let row := sampleProxy (Some true) None None None None in
  outcome (run (stub (Some row)) getList 0%nat) = Ok [row].
Proof.
  intros row.
  refine (proj2 (proj1 (getList_outcome (stub (Some row)) 0%nat) [row]) _).
  right; left; reflexivity.
Defined.
